(** * SimpleDraggable: a shallow embedding of [SImpleDraggable.js]

    The class drags one element by a handle, keeps it inside the viewport or
    the document, records the translation on the element, optionally stores
    it in [localStorage] and follows [storage] events of other tabs.

    Conventions of the embedding.
    - Numbers are exact integers ([Z]): pixel arithmetic without rounding.
      A run in which a value that is not an integer reaches the arithmetic
      ([undefined], a string, a number with a fraction) ends in
      [Unmodelled]. The numbers of the source are IEEE doubles; the two
      arithmetics agree on integers while every value stays within 2^53 in
      magnitude, which [pixel] bounds on the inputs secure. Where a
      property depends on exact sums it carries these bounds; module
      [Double] holds the same arithmetic on doubles and shows where
      fractional values part from it.
    - Host objects the class only queries ([getComputedStyle],
      [getBoundingClientRect], [visualViewport], the document metrics) are
      read from a [host] snapshot handed to each method; border widths are
      the numbers [parseFloat] returns.
    - The mutable objects the class writes are explicit state: the instance
      fields, the element's [dataset] and [style.translate], [localStorage]
      and the registered listeners.
    - A method that can throw returns a [result]; [JSON.parse] returns
      [None] where it throws. *)

From Stdlib Require Import ZArith Lia String Ascii List Bool Floats.
From stdpp Require Import base option strings gmap pretty.

Open Scope Z_scope.

Set Warnings "-register-all,-inexact-float".

#[local] Arguments String.append : simpl nomatch.

(** ** Host built-ins: [JSON.parse], [JSON.stringify], number printing *)

Module JSON.

(** A parsed value. A number token with a fraction or an exponent part is
    not an integer of the model: [JFloat] keeps only whether it is zero. *)
Inductive json : Type :=
| JNull
| JBool (b : bool)
| JNum (n : Z)
| JFloat (nonzero : bool)
| JStr (s : string)
| JArr (items : list json)
| JObj (members : list (string * json)).

Definition quote : ascii := "034"%char.
Definition backslash : ascii := "092"%char.

Definition is_ws (c : ascii) : bool :=
  Ascii.eqb c " "%char || Ascii.eqb c "009"%char
  || Ascii.eqb c "010"%char || Ascii.eqb c "013"%char.

Fixpoint skip_ws (s : string) : string :=
  match s with
  | String c r => if is_ws c then skip_ws r else s
  | EmptyString => s
  end.

Definition is_digit (c : ascii) : bool :=
  ((48 <=? N_of_ascii c) && (N_of_ascii c <=? 57))%N.

Definition digit_val (c : ascii) : N := (N_of_ascii c - 48)%N.

(** The longest run of decimal digits, read left to right. *)
Fixpoint read_digits (s : string) (acc : N) : N * string :=
  match s with
  | String c r =>
      if is_digit c then read_digits r (acc * 10 + digit_val c)%N
      else (acc, s)
  | EmptyString => (acc, s)
  end.

(** [int]: a single [0], or a digit [1-9] followed by digits. *)
Definition read_int (s : string) : option (N * string) :=
  match s with
  | String c r =>
      if Ascii.eqb c "0"%char then Some (0%N, r)
      else if is_digit c then Some (read_digits s 0)
      else None
  | EmptyString => None
  end.

(** A run of digits that must not be empty: how many there are, whether one
    of them is not [0], and the rest of the text. *)
Fixpoint span_digits (s : string) : nat * bool * string :=
  match s with
  | String c r =>
      if is_digit c
      then let '(k, nz, r') := span_digits r in
           (S k, negb (Ascii.eqb c "0"%char) || nz, r')
      else (O, false, s)
  | EmptyString => (O, false, s)
  end.

(** [frac]: nothing, or a point and at least one digit. *)
Definition read_frac (s : string) : option (option bool * string) :=
  match s with
  | String c r =>
      if Ascii.eqb c "."%char
      then match span_digits r with
           | (O, _, _) => None
           | (S _, nz, r') => Some (Some nz, r')
           end
      else Some (None, s)
  | EmptyString => Some (None, s)
  end.

(** [exp]: nothing, or [e] or [E], an optional sign and at least one
    digit. *)
Definition read_exp (s : string) : option (bool * string) :=
  match s with
  | String c r =>
      if Ascii.eqb c "e"%char || Ascii.eqb c "E"%char
      then
        let r1 := match r with
                  | String c' r' =>
                      if Ascii.eqb c' "+"%char || Ascii.eqb c' "-"%char
                      then r' else r
                  | EmptyString => r
                  end in
        match span_digits r1 with
        | (O, _, _) => None
        | (S _, _, r2) => Some (true, r2)
        end
      else Some (false, s)
  | EmptyString => Some (false, s)
  end.

(** [number]: an optional minus sign, [int], [frac], [exp]. An integer
    token is kept as the integer it denotes, which is the double
    [JSON.parse] returns for the tokens within 2^53 in magnitude (beyond,
    the source rounds to the nearest double). *)
Definition read_number (s : string) : option (json * string) :=
  let '(neg, s1) :=
    match s with
    | String c r => if Ascii.eqb c "-"%char then (true, r) else (false, s)
    | EmptyString => (false, s)
    end in
  '(n, r1) ← read_int s1;
  '(frac, r2) ← read_frac r1;
  '(exp, r3) ← read_exp r2;
  match frac, exp with
  | None, false => Some (JNum (if neg then - Z.of_N n else Z.of_N n), r3)
  | None, true => Some (JFloat (negb (n =? 0)%N), r3)
  | Some nz, _ => Some (JFloat (negb (n =? 0)%N || nz), r3)
  end.

Definition hex_val (c : ascii) : option N :=
  let n := N_of_ascii c in
  if ((48 <=? n) && (n <=? 57))%N then Some (n - 48)%N
  else if ((65 <=? n) && (n <=? 70))%N then Some (n - 55)%N
  else if ((97 <=? n) && (n <=? 102))%N then Some (n - 87)%N
  else None.

(** The code unit of a [\uXXXX] escape as bytes: itself below 128, its
    UTF-8 encoding above. *)
Definition code_unit (n : N) : string :=
  if (n <? 128)%N then String (ascii_of_N n) EmptyString
  else if (n <? 2048)%N
  then String (ascii_of_N (192 + n / 64))
         (String (ascii_of_N (128 + n mod 64)) EmptyString)
  else String (ascii_of_N (224 + n / 4096))
         (String (ascii_of_N (128 + (n / 64) mod 64))
            (String (ascii_of_N (128 + n mod 64)) EmptyString)).

Definition hex4 (h1 h2 h3 h4 : ascii) : option N :=
  a ← hex_val h1; b ← hex_val h2; c ← hex_val h3; d ← hex_val h4;
  Some (((a * 16 + b) * 16 + c) * 16 + d)%N.

(** The character a one-letter escape stands for. *)
Definition simple_escape (e : ascii) : option ascii :=
  if Ascii.eqb e quote then Some quote
  else if Ascii.eqb e backslash then Some backslash
  else if Ascii.eqb e "/"%char then Some "/"%char
  else if Ascii.eqb e "b"%char then Some "008"%char
  else if Ascii.eqb e "f"%char then Some "012"%char
  else if Ascii.eqb e "n"%char then Some "010"%char
  else if Ascii.eqb e "r"%char then Some "013"%char
  else if Ascii.eqb e "t"%char then Some "009"%char
  else None.

(** The characters after an opening quote up to the closing one, escapes
    decoded; a control character is not allowed. *)
Fixpoint read_string (s : string) : option (string * string) :=
  match s with
  | EmptyString => None
  | String c r =>
      if Ascii.eqb c quote then Some (EmptyString, r)
      else if (N_of_ascii c <? 32)%N then None
      else if Ascii.eqb c backslash
      then
        match r with
        | String e r1 =>
            if Ascii.eqb e "u"%char
            then
              match r1 with
              | String h1 (String h2 (String h3 (String h4 r2))) =>
                  n ← hex4 h1 h2 h3 h4;
                  '(t, r') ← read_string r2;
                  Some (code_unit n +:+ t, r')
              | _ => None
              end
            else
              d ← simple_escape e;
              '(t, r') ← read_string r1;
              Some (String d t, r')
        | EmptyString => None
        end
      else '(t, r') ← read_string r; Some (String c t, r')
  end.

(** [s] without its prefix [p]. *)
Fixpoint strip (p s : string) : option string :=
  match p with
  | EmptyString => Some s
  | String a p' =>
      match s with
      | String c s' => if Ascii.eqb a c then strip p' s' else None
      | EmptyString => None
      end
  end.

(** What a value starts with, after white space. *)
Inductive opening : Type :=
| OLiteral (v : json) (rest : string)
| OString (rest : string)
| OArray (rest : string)
| OObject (rest : string)
| ONumber (s : string).

Definition opening_of (s : string) : opening :=
  match strip "null" s, strip "true" s, strip "false" s with
  | Some r, _, _ => OLiteral JNull r
  | None, Some r, _ => OLiteral (JBool true) r
  | None, None, Some r => OLiteral (JBool false) r
  | None, None, None =>
      match s with
      | String c r =>
          if Ascii.eqb c quote then OString r
          else if Ascii.eqb c "["%char then OArray r
          else if Ascii.eqb c "{"%char then OObject r
          else ONumber s
      | EmptyString => ONumber s
      end
  end.

(** The character that follows a value or a member, after white space. *)
Definition next_char (s : string) : option (ascii * string) :=
  match skip_ws s with
  | String c r => Some (c, r)
  | EmptyString => None
  end.

Fixpoint read_value (fuel : nat) (s : string) : option (json * string) :=
  match fuel with
  | O => None
  | S fuel =>
      match opening_of (skip_ws s) with
      | OLiteral v r => Some (v, r)
      | OString r => '(t, r') ← read_string r; Some (JStr t, r')
      | OArray r =>
          match strip "]" (skip_ws r) with
          | Some r' => Some (JArr [], r')
          | None => '(vs, r') ← read_items fuel r; Some (JArr vs, r')
          end
      | OObject r =>
          match strip "}" (skip_ws r) with
          | Some r' => Some (JObj [], r')
          | None => '(ms, r') ← read_members fuel r; Some (JObj ms, r')
          end
      | ONumber s' => read_number s'
      end
  end
with read_items (fuel : nat) (s : string) : option (list json * string) :=
  match fuel with
  | O => None
  | S fuel =>
      '(v, r) ← read_value fuel s;
      '(c, r') ← next_char r;
      if Ascii.eqb c ","%char
      then '(vs, r'') ← read_items fuel r'; Some (v :: vs, r'')
      else if Ascii.eqb c "]"%char then Some ([v], r')
      else None
  end
with read_members (fuel : nat) (s : string)
    : option (list (string * json) * string) :=
  match fuel with
  | O => None
  | S fuel =>
      r ← strip (String quote EmptyString) (skip_ws s);
      '(k, r1) ← read_string r;
      r2 ← strip ":" (skip_ws r1);
      '(v, r3) ← read_value fuel r2;
      '(c, r4) ← next_char r3;
      if Ascii.eqb c ","%char
      then '(ms, r5) ← read_members fuel r4; Some ((k, v) :: ms, r5)
      else if Ascii.eqb c "}"%char then Some ([(k, v)], r4)
      else None
  end.

(** [JSON.parse(text)]: [None] stands for the [SyntaxError] it throws.
    Twice the length of the text is fuel enough ([parse_fuel_enough]). *)
Definition parse (text : string) : option json :=
  '(v, r) ← read_value (2 * String.length text + 2) text;
  match skip_ws r with
  | EmptyString => Some v
  | _ => None
  end.

(** [value.key] on a parsed value: the last member of that name of an
    object, [undefined] ([None]) otherwise. *)
Fixpoint last_member (k : string) (ms : list (string * json)) : option json :=
  match ms with
  | [] => None
  | (k', v) :: ms' =>
      match last_member k ms' with
      | Some v' => Some v'
      | None => if String.eqb k k' then Some v else None
      end
  end.

Definition get (k : string) (v : json) : option json :=
  match v with
  | JObj ms => last_member k ms
  | _ => None
  end.

(** JS truthiness of a parsed value. *)
Definition truthy (v : json) : bool :=
  match v with
  | JNull => false
  | JBool b => b
  | JNum n => negb (n =? 0)
  | JFloat nonzero => nonzero
  | JStr s => negb (String.eqb s EmptyString)
  | JArr _ | JObj _ => true
  end.

(** [String(n)] for an integer [n], as a template literal and
    [JSON.stringify] print it: plain decimal digits, which is what the
    source prints for the integers below 10^21 (from there on it prints an
    exponent). *)
Definition number_to_string (n : Z) : string := pretty n.

Arguments number_to_string : simpl never.

(** What may follow an integer token: not a digit, and no fraction or
    exponent. *)
Definition delimits (s : string) : bool :=
  match s with
  | String c _ =>
      negb (is_digit c || Ascii.eqb c "."%char || Ascii.eqb c "e"%char
            || Ascii.eqb c "E"%char)
  | EmptyString => true
  end.

Definition quoted (s : string) : string :=
  String quote (s +:+ String quote EmptyString).

(** [JSON.stringify({ x: tx, y: ty })] for two integers. *)
Definition stringify (tx ty : Z) : string :=
  "{" +:+ quoted "x" +:+ ":" +:+ number_to_string tx +:+ ","
  +:+ quoted "y" +:+ ":" +:+ number_to_string ty +:+ "}".

End JSON.

Import JSON.

(** ** Data of the class *)

(** The [{x, y}] objects of the source: dimensions, corrections, offsets. *)
Record point : Type := { x : Z; y : Z }.

(** The fields of [getBoundingClientRect()] the class reads. *)
Record DOMRect : Type := {
  rect_left : Z;
  rect_top : Z;
  rect_width : Z;
  rect_height : Z
}.

Inductive css_position : Type := Static | Relative | Absolute | Fixed | Sticky.

Definition position_name (p : css_position) : string :=
  match p with
  | Static => "static"
  | Relative => "relative"
  | Absolute => "absolute"
  | Fixed => "fixed"
  | Sticky => "sticky"
  end.

(** What the host answers when a method runs: the computed style and box of
    the element, the viewport and the document metrics. [visualViewport] is
    [None] when the browser has none, else its width as [x] and its height
    as [y]; [body_] and [root_] are [document.body] and
    [document.documentElement]. *)
Record host : Type := {
  computed_position : css_position;
  borderLeft : Z;
  borderRight : Z;
  borderTop : Z;
  borderBottom : Z;
  boundingClientRect : DOMRect;
  visualViewport : option point;
  innerWidth : Z;
  innerHeight : Z;
  body_scrollHeight : Z;
  root_scrollHeight : Z;
  body_offsetHeight : Z;
  root_offsetHeight : Z;
  body_clientHeight : Z;
  root_clientHeight : Z;
  body_scrollWidth : Z;
  root_scrollWidth : Z;
  body_offsetWidth : Z;
  root_offsetWidth : Z;
  body_clientWidth : Z;
  root_clientWidth : Z;
  scrollX : Z;
  scrollY : Z
}.

(** The instance fields. [position] and the thresholds are [None] while
    they are [undefined], that is until [_setProperties] has run; the other
    numeric fields are written before every read. *)
Record instance : Type := {
  id : string;
  store : bool;
  enabled : bool;
  position : option css_position;
  elementRect : DOMRect;
  dimensions : point;
  borderH : Z;
  borderV : Z;
  thresholdX : option Z;
  thresholdY : option Z;
  pos_1 : Z;
  pos_2 : Z;
  pos_3 : Z;
  pos_4 : Z;
  translateX : Z;
  translateY : Z;
  offsetLeft : Z;
  offsetTop : Z
}.

(** [element.style.translate]: empty, or [`${x}px ${y}px`]. *)
Inductive css_translate : Type :=
| translate_none
| translate_px (tx ty : Z).

(** The parts of the target element the class reads and writes. *)
Record element : Type := {
  dataset_translate : option string;
  dataset_draggable : option string;
  style_translate : css_translate
}.

(** Which of the four bound handlers are registered. *)
Record listeners : Type := {
  mousedown_listener : bool;
  storage_listener : bool;
  mousemove_listener : bool;
  mouseup_listener : bool
}.

Record world : Type := {
  this : instance;
  el : element;
  localStorage : gmap string string;
  registered : listeners
}.

Record MouseEvent : Type := {
  target_is_dragElement : bool;
  button : Z;
  clientX : Z;
  clientY : Z
}.

Record StorageEvent : Type := {
  key : option string;
  newValue : option string
}.

(** ** Results *)

Inductive exn : Type :=
| Error (msg : string)
| TypeError.

(** [Throw e w]: the exception [e] reaches the caller, [w] is the state at
    that moment. [Unmodelled]: a value that is not an integer ([undefined], a
    string, a number with a fraction, ...) reached the arithmetic; JS goes on
    with [NaN], a concatenated string or a float, which the integer model
    does not follow. *)
Inductive result (A : Type) : Type :=
| Ok (a : A)
| Throw (e : exn) (w : world)
| Unmodelled.

Arguments Ok {A} a.
Arguments Throw {A} e w.
Arguments Unmodelled {A}.

#[global] Instance result_bind : MBind result := λ A B f r,
  match r with
  | Ok a => f a
  | Throw e w => Throw e w
  | Unmodelled => Unmodelled
  end.

#[global] Instance result_ret : MRet result := λ A a, Ok a.


(** ** State updates *)

Definition set_this (t : instance) (w : world) : world :=
  {| this := t; el := el w; localStorage := localStorage w;
     registered := registered w |}.

Definition set_el (e : element) (w : world) : world :=
  {| this := this w; el := e; localStorage := localStorage w;
     registered := registered w |}.

Definition set_localStorage (ls : gmap string string) (w : world) : world :=
  {| this := this w; el := el w; localStorage := ls;
     registered := registered w |}.

Definition set_registered (r : listeners) (w : world) : world :=
  {| this := this w; el := el w; localStorage := localStorage w;
     registered := r |}.

(** The four bound handlers, each registered for one event type. *)
Inductive handler : Type :=
| boundMouseDown
| boundStorage
| boundDrag
| boundStopDrag.

Definition listen (k : handler) (b : bool) (r : listeners) : listeners :=
  match k with
  | boundMouseDown =>
      {| mousedown_listener := b; storage_listener := storage_listener r;
         mousemove_listener := mousemove_listener r;
         mouseup_listener := mouseup_listener r |}
  | boundStorage =>
      {| mousedown_listener := mousedown_listener r; storage_listener := b;
         mousemove_listener := mousemove_listener r;
         mouseup_listener := mouseup_listener r |}
  | boundDrag =>
      {| mousedown_listener := mousedown_listener r;
         storage_listener := storage_listener r;
         mousemove_listener := b;
         mouseup_listener := mouseup_listener r |}
  | boundStopDrag =>
      {| mousedown_listener := mousedown_listener r;
         storage_listener := storage_listener r;
         mousemove_listener := mousemove_listener r;
         mouseup_listener := b |}
  end.

(** Registering a handler twice registers it once. *)
Definition addEventListener (k : handler) (w : world) : world :=
  set_registered (listen k true (registered w)) w.

Definition removeEventListener (k : handler) (w : world) : world :=
  set_registered (listen k false (registered w)) w.

Definition set_enabled (b : bool) (t : instance) : instance :=
  {| id := id t; store := store t; enabled := b; position := position t;
     elementRect := elementRect t; dimensions := dimensions t;
     borderH := borderH t; borderV := borderV t;
     thresholdX := thresholdX t; thresholdY := thresholdY t;
     pos_1 := pos_1 t; pos_2 := pos_2 t; pos_3 := pos_3 t; pos_4 := pos_4 t;
     translateX := translateX t; translateY := translateY t;
     offsetLeft := offsetLeft t; offsetTop := offsetTop t |}.

Definition set_position (p : css_position) (t : instance) : instance :=
  {| id := id t; store := store t; enabled := enabled t; position := Some p;
     elementRect := elementRect t; dimensions := dimensions t;
     borderH := borderH t; borderV := borderV t;
     thresholdX := thresholdX t; thresholdY := thresholdY t;
     pos_1 := pos_1 t; pos_2 := pos_2 t; pos_3 := pos_3 t; pos_4 := pos_4 t;
     translateX := translateX t; translateY := translateY t;
     offsetLeft := offsetLeft t; offsetTop := offsetTop t |}.

Definition set_dataset_translate (s : string) (e : element) : element :=
  {| dataset_translate := Some s; dataset_draggable := dataset_draggable e;
     style_translate := style_translate e |}.

Definition set_style_translate (t : css_translate) (e : element) : element :=
  {| dataset_translate := dataset_translate e;
     dataset_draggable := dataset_draggable e; style_translate := t |}.

(** [dataset.draggable === "false"] *)
Definition draggable_is_false (e : element) : bool :=
  match dataset_draggable e with
  | Some s => String.eqb s "false"
  | None => false
  end.

(** ** The strings the class writes *)

(** The literal [{"x":0,"y":0}] of [_setProperties] and [stop]. *)
Definition zero_annotation : string :=
  "{" +:+ quoted "x" +:+ ":0," +:+ quoted "y" +:+ ":0}".

(** The template [{"x":${x}, "y":${y}}] of [_stopDrag] and [_updatePos]. *)
Definition annotation (tx ty : Z) : string :=
  "{" +:+ quoted "x" +:+ ":" +:+ number_to_string tx +:+ ", "
  +:+ quoted "y" +:+ ":" +:+ number_to_string ty +:+ "}".

(** The object [{ x: tx, y: ty }]. *)
Definition xy_object (tx ty : Z) : json :=
  JObj [("x"%string, JNum tx); ("y"%string, JNum ty)].

(** The members [x] and [y] of a value when both are numbers. *)
Definition number_members (v : json) : option point :=
  match JSON.get "x" v, JSON.get "y" v with
  | Some (JNum a), Some (JNum b) => Some {| x := a; y := b |}
  | _, _ => None
  end.

(** ** Geometry queries *)

Definition Math_max (a : Z) (rest : list Z) : Z := fold_left Z.max rest a.

Definition getDocDimensions (h : host) : point :=
  let y0 := Math_max (body_scrollHeight h)
              [root_scrollHeight h; body_offsetHeight h; root_offsetHeight h;
               body_clientHeight h; root_clientHeight h] in
  let x0 := Math_max (body_scrollWidth h)
              [root_scrollWidth h; body_offsetWidth h; root_offsetWidth h;
               body_clientWidth h; root_clientWidth h] in
  {| x := x0 - scrollX h; y := y0 - scrollY h |}.

Definition getViewport (h : host) : point :=
  match visualViewport h with
  | Some v => {| x := x v; y := y v |}
  | None => {| x := innerWidth h; y := innerHeight h |}
  end.

(** [this.position === "fixed" ? this.getViewport() : this.getDocDimensions()] *)
Definition container (p : option css_position) (h : host) : point :=
  match p with
  | Some Fixed => getViewport h
  | _ => getDocDimensions h
  end.

(** One axis of [_getThresholds]. With an [undefined] threshold the first
    test compares [NaN] and fails. *)
Definition correction (threshold : option Z) (c : Z) : Z :=
  match threshold with
  | Some t =>
      if t - c <? 0 then t - c
      else if c <? 0 then Z.abs c
      else 0
  | None => if c <? 0 then Z.abs c else 0
  end.

Definition _getThresholds (t : instance) (top left : Z) : point :=
  {| x := correction (thresholdX t) left;
     y := correction (thresholdY t) top |}.

(** ** Methods of the class *)

Definition position_error (p : css_position) : exn :=
  Error ("Element position cannot be " +:+ position_name p
         +:+ ". Use fixed or absolute instead!").

Definition _setProperties (h : host) (w : world) : result world :=
  let t := this w in
  let ls := if store t then localStorage w
            else delete (id t) (localStorage w) in
  let p := computed_position h in
  if enabled t
     && negb match p with Fixed | Absolute => true | _ => false end
  then Throw (position_error p)
         (set_localStorage ls (set_this (set_position p t) w))
  else
    let rect := boundingClientRect h in
    let dims := container (Some p) h in
    let bh := borderLeft h + borderRight h in
    let bv := borderTop h + borderBottom h in
    Ok {| this :=
            {| id := id t; store := store t; enabled := enabled t;
               position := Some p;
               elementRect := rect;
               dimensions := dims;
               borderH := bh;
               borderV := bv;
               thresholdX := Some (x dims - (rect_width rect + bh));
               thresholdY := Some (y dims - (rect_height rect + bv));
               pos_1 := 0; pos_2 := 0; pos_3 := 0; pos_4 := 0;
               translateX := 0; translateY := 0;
               offsetLeft := rect_left rect;
               offsetTop := rect_top rect |};
          el := set_dataset_translate zero_annotation (el w);
          localStorage := ls;
          registered := registered w |}.

(** The block of [_mousedown] that reads the recorded offset: it starts
    from [{ x: 0, y: 0 }], parses a non-empty [dataset.translate] and keeps
    the start value when [JSON.parse] throws. *)
Definition recorded_translate (e : element) : json :=
  match dataset_translate e with
  | None => xy_object 0 0
  | Some s =>
      if String.eqb s EmptyString then xy_object 0 0
      else match JSON.parse s with
           | Some v => v
           | None => xy_object 0 0
           end
  end.

Definition _mousedown (h : host) (e : MouseEvent) (w : world) : result world :=
  if draggable_is_false (el w) then Ok w
  else if negb (target_is_dragElement e) then Ok w
  else if negb (button e =? 0) then Ok w
  else
    let t := this w in
    let rect := boundingClientRect h in
    let translate := recorded_translate (el w) in
    match translate with
    | JNull =>
        Throw TypeError
          (set_this
             {| id := id t; store := store t; enabled := enabled t;
                position := position t;
                elementRect := rect;
                dimensions := dimensions t;
                borderH := borderH t; borderV := borderV t;
                thresholdX := thresholdX t; thresholdY := thresholdY t;
                pos_1 := pos_1 t; pos_2 := pos_2 t;
                pos_3 := clientX e; pos_4 := clientY e;
                translateX := translateX t; translateY := translateY t;
                offsetLeft := offsetLeft t; offsetTop := offsetTop t |} w)
    | _ =>
        match number_members translate with
        | None => Unmodelled
        | Some tr =>
            let dims := container (position t) h in
            Ok (addEventListener boundStopDrag
                  (addEventListener boundDrag
                     (set_this
                        {| id := id t; store := store t; enabled := enabled t;
                           position := position t;
                           elementRect := rect;
                           dimensions := dims;
                           borderH := borderH t; borderV := borderV t;
                           thresholdX :=
                             Some (x dims - (rect_width rect + borderH t));
                           thresholdY :=
                             Some (y dims - (rect_height rect + borderV t));
                           pos_1 := pos_1 t; pos_2 := pos_2 t;
                           pos_3 := clientX e; pos_4 := clientY e;
                           translateX := x tr; translateY := y tr;
                           offsetLeft := rect_left rect - x tr;
                           offsetTop := rect_top rect - y tr |} w)))
        end
    end.

Definition _drag (e : MouseEvent) (w : world) : world :=
  let t := this w in
  let p1 := pos_3 t - clientX e in
  let p2 := pos_4 t - clientY e in
  let ty := translateY t - p2 in
  let tx := translateX t - p1 in
  let threshold := _getThresholds t (ty + offsetTop t) (tx + offsetLeft t) in
  let ty' := ty + y threshold in
  let tx' := tx + x threshold in
  {| this :=
       {| id := id t; store := store t; enabled := enabled t;
          position := position t;
          elementRect := elementRect t; dimensions := dimensions t;
          borderH := borderH t; borderV := borderV t;
          thresholdX := thresholdX t; thresholdY := thresholdY t;
          pos_1 := p1; pos_2 := p2;
          pos_3 := clientX e; pos_4 := clientY e;
          translateX := tx'; translateY := ty';
          offsetLeft := offsetLeft t; offsetTop := offsetTop t |};
     el := set_style_translate (translate_px tx' ty') (el w);
     localStorage := localStorage w;
     registered := registered w |}.

Definition _stopDrag (e : MouseEvent) (w : world) : world :=
  let w1 := removeEventListener boundDrag w in
  let t := this w1 in
  let w2 :=
    set_el (set_dataset_translate
              (annotation (translateX t) (translateY t)) (el w1)) w1 in
  if store t
  then set_localStorage
         (<[id t := JSON.stringify (translateX t) (translateY t)]>
            (localStorage w2)) w2
  else w2.

Definition _getPos (h : host) (data : json) (w : world)
    : result (point * world) :=
  match (if JSON.truthy data then number_members data
         else Some {| x := 0; y := 0 |}) with
  | None => Unmodelled
  | Some pos =>
      let t := this w in
      let rect := boundingClientRect h in
      let t' :=
        {| id := id t; store := store t; enabled := enabled t;
           position := position t;
           elementRect := rect; dimensions := dimensions t;
           borderH := borderH t; borderV := borderV t;
           thresholdX := thresholdX t; thresholdY := thresholdY t;
           pos_1 := pos_1 t; pos_2 := pos_2 t;
           pos_3 := pos_3 t; pos_4 := pos_4 t;
           translateX := translateX t; translateY := translateY t;
           offsetLeft := rect_left rect - x pos;
           offsetTop := rect_top rect - y pos |} in
      let threshold :=
        _getThresholds t' (y pos + offsetTop t') (x pos + offsetLeft t') in
      Ok ({| x := x pos + x threshold; y := y pos + y threshold |},
          set_this t' w)
  end.

Definition _updatePos (h : host) (storedData : option string) (w : world)
    : result world :=
  match storedData with
  | None => Ok w
  | Some s =>
      if String.eqb s EmptyString then Ok w
      else
        let data :=
          match JSON.parse s with
          | Some v => v
          | None => xy_object 0 0
          end in
        '(pos, w1) ← _getPos h data w;
        Ok (set_el
              (set_style_translate
                 (if JSON.truthy data then translate_px (x pos) (y pos)
                  else translate_none)
                 (set_dataset_translate (annotation (x pos) (y pos)) (el w1)))
              w1)
  end.

Definition _onStorage (h : host) (e : StorageEvent) (w : world)
    : result world :=
  if draggable_is_false (el w) then Ok w
  else
    match key e with
    | Some k =>
        if String.eqb k (id (this w)) then _updatePos h (newValue e) w
        else Ok w
    | None => Ok w
    end.

Definition _restorePos (h : host) (w : world) : result world :=
  _updatePos h (localStorage w !! id (this w)) w.

Definition removeListeners (w : world) : world :=
  removeEventListener boundStopDrag
    (removeEventListener boundDrag
       (removeEventListener boundStorage
          (removeEventListener boundMouseDown w))).

Definition stop (w : world) : world :=
  if negb (enabled (this w)) then w
  else
    let w1 := removeListeners w in
    set_this (set_enabled false (this w1))
      (set_el (set_dataset_translate zero_annotation (el w1)) w1).

Definition start (h : host) (w : world) : result world :=
  if enabled (this w) then Ok w
  else
    w1 ← _setProperties h w;
    w2 ← _restorePos h w1;
    let w3 := addEventListener boundStorage
                (addEventListener boundMouseDown w2) in
    Ok (set_this (set_enabled true (this w3)) w3).

(** The arguments [dragElement] and [element] as the checks of the
    constructor see them: a falsy value, an object that is no instance of
    [HTMLElement], an instance whose [nodeType] is not [ELEMENT_NODE] (a
    shadowed property), or an element. *)
Inductive js_arg : Type :=
| Missing
| NotHTMLElement
| NotElementNode
| HTMLElement.

Definition no_listeners : listeners :=
  {| mousedown_listener := false; storage_listener := false;
     mousemove_listener := false; mouseup_listener := false |}.

(** The object under construction before [_setProperties] fills it. The
    fields the source leaves [undefined] until [_setProperties] or
    [_mousedown] assigns them are [None] where a method can read them
    before (the position and the thresholds) and 0 otherwise: the mouse
    handlers that read those run only after one of the two has assigned
    them. *)
Definition fresh_instance (i : string) (s b : bool) : instance :=
  {| id := i; store := s; enabled := b; position := None;
     elementRect := {| rect_left := 0; rect_top := 0;
                       rect_width := 0; rect_height := 0 |};
     dimensions := {| x := 0; y := 0 |};
     borderH := 0; borderV := 0;
     thresholdX := None; thresholdY := None;
     pos_1 := 0; pos_2 := 0; pos_3 := 0; pos_4 := 0;
     translateX := 0; translateY := 0;
     offsetLeft := 0; offsetTop := 0 |}.

(** [new SimpleDraggable(id, dragElement, element, store, enabled)] in a
    page whose target element is [target] and whose storage is [ls]. An
    [id] that is not a string is [None]. *)
Definition constructor (h : host) (target : element) (ls : gmap string string)
    (idArg : option string) (dragElement elementArg : js_arg)
    (storeArg enabledArg : bool) : result world :=
  let w0 := {| this := fresh_instance EmptyString false false;
               el := target; localStorage := ls;
               registered := no_listeners |} in
  match dragElement, elementArg with
  | Missing, _ => Throw (Error "dragElement is required!") w0
  | _, Missing => Throw (Error "element is required!") w0
  | NotHTMLElement, _ =>
      Throw (Error "dragElement is not an HTMLElement Object!") w0
  | _, NotHTMLElement =>
      Throw (Error "element is not an HTMLElement Object!") w0
  | NotElementNode, _ =>
      Throw (Error "dragElement is not an element node!") w0
  | _, NotElementNode =>
      Throw (Error "element is not an element node!") w0
  | HTMLElement, HTMLElement =>
      match idArg with
      | None => Throw (Error "ID is not a string or contains no text!") w0
      | Some i =>
          if String.eqb i EmptyString
          then Throw (Error "ID is not a string or contains no text!") w0
          else
            let w1 := set_this (fresh_instance i storeArg enabledArg) w0 in
            w2 ← (if enabledArg
                  then
                    w ← _setProperties h w1;
                    w' ← _restorePos h w;
                    Ok (addEventListener boundMouseDown w')
                  else Ok w1);
            Ok (addEventListener boundStorage w2)
      end
  end.

(** ** Events and runs *)

(** The browser calls a handler only while it is registered; the [mouseup]
    handler is registered with [once] and is removed before it runs. *)
Inductive action : Type :=
| call_start
| call_stop
| call_removeListeners
| mousedown (e : MouseEvent)
| mousemove (e : MouseEvent)
| mouseup (e : MouseEvent)
| storage (e : StorageEvent).

Definition step (h : host) (a : action) (w : world) : result world :=
  match a with
  | call_start => start h w
  | call_stop => Ok (stop w)
  | call_removeListeners => Ok (removeListeners w)
  | mousedown e =>
      if mousedown_listener (registered w) then _mousedown h e w else Ok w
  | mousemove e =>
      if mousemove_listener (registered w) then Ok (_drag e w) else Ok w
  | mouseup e =>
      if mouseup_listener (registered w)
      then Ok (_stopDrag e (removeEventListener boundStopDrag w))
      else Ok w
  | storage e =>
      if storage_listener (registered w) then _onStorage h e w else Ok w
  end.

(** The state an action leaves behind. An exception a handler throws is
    reported and the page goes on from the state reached; [None] when the
    action left the integer model. *)
Definition after (r : result world) : option world :=
  match r with
  | Ok w => Some w
  | Throw _ w => Some w
  | Unmodelled => None
  end.

(** A run: each action with the host as it is when the action happens. *)
Fixpoint run (tr : list (host * action)) (w : world) : option world :=
  match tr with
  | [] => Some w
  | (h, a) :: tr' => w' ← after (step h a w); run tr' w'
  end.

(** The press starts a drag session: none of the three guards of
    [_mousedown] returns. *)
Definition accepted (e : MouseEvent) (w : world) : bool :=
  negb (draggable_is_false (el w)) && target_is_dragElement e
  && (button e =? 0).


(** ** The statements of the specification *)

(** [computeThresholdRange] in the words of the specification. *)
Definition computeThresholdRange (containerSize elementSize borders : point)
    : point :=
  {| x := x containerSize - (x elementSize + x borders);
     y := y containerSize - (y elementSize + y borders) |}.

(** One axis of [clamp] in the words of the specification. *)
Definition spec_clamp_axis (max c : Z) : Z :=
  if max - c <? 0 then max - c
  else if c <? 0 then Z.abs c
  else 0.

Definition within (max c : Z) : Prop := 0 <= c <= max.

(** The translation a [style.translate] value renders. *)
Definition rendered (s : css_translate) : point :=
  match s with
  | translate_px tx ty => {| x := tx; y := ty |}
  | translate_none => {| x := 0; y := 0 |}
  end.

(** The rendered translation lies in [[0, maxX] x [0, maxY]]. *)
Definition translation_within (max : point) (s : css_translate) : Prop :=
  within (x max) (x (rendered s)) /\ within (y max) (y (rendered s)).

(** The rendered top-left corner, the pre-drag pixel offset plus the
    translation, lies in [[0, maxX] x [0, maxY]]. *)
Definition corner_within (left0 top0 : Z) (max : point) (s : css_translate)
    : Prop :=
  within (x max) (left0 + x (rendered s))
  /\ within (y max) (top0 + y (rendered s)).

(** ** Concrete pages *)

(** A page without borders and scrolling whose viewport and document both
    measure [vw] by [vh]. *)
Definition page (p : css_position) (rect : DOMRect) (vw vh : Z) : host :=
  {| computed_position := p;
     borderLeft := 0; borderRight := 0; borderTop := 0; borderBottom := 0;
     boundingClientRect := rect;
     visualViewport := Some {| x := vw; y := vh |};
     innerWidth := vw; innerHeight := vh;
     body_scrollHeight := vh; root_scrollHeight := vh;
     body_offsetHeight := vh; root_offsetHeight := vh;
     body_clientHeight := vh; root_clientHeight := vh;
     body_scrollWidth := vw; root_scrollWidth := vw;
     body_offsetWidth := vw; root_offsetWidth := vw;
     body_clientWidth := vw; root_clientWidth := vw;
     scrollX := 0; scrollY := 0 |}.

Definition box (l t : Z) : DOMRect :=
  {| rect_left := l; rect_top := t; rect_width := 100; rect_height := 50 |}.

(** A target element nothing has touched yet. *)
Definition plain_element : element :=
  {| dataset_translate := None; dataset_draggable := None;
     style_translate := translate_none |}.

Definition press (cx cy : Z) : MouseEvent :=
  {| target_is_dragElement := true; button := 0; clientX := cx; clientY := cy |}.

(** The state the constructor starts from once its arguments are checked. *)
Definition new_world (i : string) (s b : bool) (target : element)
    (ls : gmap string string) : world :=
  {| this := fresh_instance i s b; el := target; localStorage := ls;
     registered := no_listeners |}.

(** The range [_mousedown] computes for a press in state [w]. *)
Definition press_range (h : host) (w : world) : point :=
  computeThresholdRange (container (position (this w)) h)
    {| x := rect_width (boundingClientRect h);
       y := rect_height (boundingClientRect h) |}
    {| x := borderH (this w); y := borderV (this w) |}.

(** The range [_setProperties] computes. *)
Definition setup_range (h : host) : point :=
  computeThresholdRange (container (Some (computed_position h)) h)
    {| x := rect_width (boundingClientRect h);
       y := rect_height (boundingClientRect h) |}
    {| x := borderLeft h + borderRight h;
       y := borderTop h + borderBottom h |}.

(** A state in the middle of a session whose running translation is
    [(tx, ty)]. *)
Definition set_translate (tx ty : Z) (w : world) : world :=
  let t := this w in
  set_this
    {| id := id t; store := store t; enabled := enabled t;
       position := position t;
       elementRect := elementRect t; dimensions := dimensions t;
       borderH := borderH t; borderV := borderV t;
       thresholdX := thresholdX t; thresholdY := thresholdY t;
       pos_1 := pos_1 t; pos_2 := pos_2 t; pos_3 := pos_3 t; pos_4 := pos_4 t;
       translateX := tx; translateY := ty;
       offsetLeft := offsetLeft t; offsetTop := offsetTop t |} w.

(** The store after is the store before, possibly without the entry of the
    instance: nothing was written. *)
Definition nothing_written (w w' : world) : Prop :=
  localStorage w' = localStorage w
  \/ localStorage w' = delete (id (this w)) (localStorage w).

(** ** Notions for the properties of the whole class *)

(** The action is an event the browser delivers, not a method call. *)
Definition is_event (a : action) : bool :=
  match a with
  | mousedown _ | mousemove _ | mouseup _ | storage _ => true
  | call_start | call_stop | call_removeListeners => false
  end.

(** [_setProperties] has run: the fields it fills are no longer
    [undefined]. *)
Definition initialised (t : instance) : Prop :=
  position t <> None /\ thresholdX t <> None /\ thresholdY t <> None.

(** The handlers that read the fields of [_setProperties] are registered
    only once those are filled, and the move and release handlers are
    registered together. *)
Definition listeners_consistent (w : world) : Prop :=
  mousemove_listener (registered w) = mouseup_listener (registered w)
  /\ (mousedown_listener (registered w) = true -> initialised (this w))
  /\ (mousemove_listener (registered w) = true -> initialised (this w)).

(** The six metrics [getDocDimensions] takes the maximum of, per axis. *)
Definition height_metrics (h : host) : list Z :=
  [body_scrollHeight h; root_scrollHeight h; body_offsetHeight h;
   root_offsetHeight h; body_clientHeight h; root_clientHeight h].

Definition width_metrics (h : host) : list Z :=
  [body_scrollWidth h; root_scrollWidth h; body_offsetWidth h;
   root_offsetWidth h; body_clientWidth h; root_clientWidth h].

(** [position] is one of the two modes [_setProperties] accepts. *)
Definition out_of_flow (p : css_position) : bool :=
  match p with
  | Fixed | Absolute => true
  | _ => false
  end.

(** The state an accepted press leaves when the recorded offset is [tr]. *)
Definition pressed (h : host) (e : MouseEvent) (tr : point) (w : world)
    : world :=
  let t := this w in
  let rect := boundingClientRect h in
  let dims := container (position t) h in
  addEventListener boundStopDrag
    (addEventListener boundDrag
       (set_this
          {| id := id t; store := store t; enabled := enabled t;
             position := position t;
             elementRect := rect;
             dimensions := dims;
             borderH := borderH t; borderV := borderV t;
             thresholdX := Some (x dims - (rect_width rect + borderH t));
             thresholdY := Some (y dims - (rect_height rect + borderV t));
             pos_1 := pos_1 t; pos_2 := pos_2 t;
             pos_3 := clientX e; pos_4 := clientY e;
             translateX := x tr; translateY := y tr;
             offsetLeft := rect_left rect - x tr;
             offsetTop := rect_top rect - y tr |} w)).

(** ** Exact number arithmetic *)

(** An integer small enough that the sums and differences the class forms
    from a handful of such values stay below 2^53 in magnitude: there the
    double arithmetic of the source, its printing of numbers and
    [JSON.parse] are exact. *)
Definition pixel (z : Z) : Prop := Z.abs z <= 2 ^ 48.

(** The recorded offset is the rendered translation, as it is after the
    set-up of an untranslated element, after a release and after a
    reconciled payload. *)
Definition recorded_is_rendered (e : element) : Prop :=
  recorded_translate e
  = xy_object (x (rendered (style_translate e)))
      (y (rendered (style_translate e))).

(** The box the host measures is the layout position [(lx, ly)] of the
    element moved by the translation it renders. *)
Definition laid_out_at (lx ly : Z) (h : host) (e : element) : Prop :=
  rect_left (boundingClientRect h) = lx + x (rendered (style_translate e))
  /\ rect_top (boundingClientRect h) = ly + y (rendered (style_translate e)).

(** ** The arithmetic on doubles *)

Module Double.

(** One axis of [_getThresholds]. *)
Definition correction (threshold c : float) : float :=
  if PrimFloat.ltb (PrimFloat.sub threshold c) PrimFloat.zero
  then PrimFloat.sub threshold c
  else if PrimFloat.ltb c PrimFloat.zero then PrimFloat.abs c
  else PrimFloat.zero.

(** [offsetLeft] as [_mousedown] and [_getPos] compute it. *)
Definition offset (rect_left translate : float) : float :=
  PrimFloat.sub rect_left translate.

(** One axis of [_drag]: the translation it renders. *)
Definition _drag (threshold offsetLeft translateX pos_3 clientX : float)
    : float :=
  let pos_1 := PrimFloat.sub pos_3 clientX in
  let tx := PrimFloat.sub translateX pos_1 in
  PrimFloat.add tx (correction threshold (PrimFloat.add tx offsetLeft)).

End Double.

(** * Properties *)

(** ** Proof steps *)

(** The goal [after (Ok w1) = Some w' -> ...] about a branch that returns
    the state [w1]: name the state and close the frame conditions. *)
Ltac returned :=
  let H := fresh "H" in
  cbn; intros H; injection H as <-; cbn; auto.


(** ** [JSON.parse] on what the class writes *)

Lemma digit_of_char (m : N) :
  (m < 10)%N ->
  is_digit (pretty_N_char m) = true /\ digit_val (pretty_N_char m) = m.
Proof.
  intros Hm.
  assert (m = 0 \/ m = 1 \/ m = 2 \/ m = 3 \/ m = 4 \/ m = 5 \/ m = 6
          \/ m = 7 \/ m = 8 \/ m = 9)%N as Hcases by lia.
  repeat (destruct Hcases as [->|Hcases]; [split; reflexivity|]).
  subst m. split; reflexivity.
Qed.

Lemma pretty_N_go_app (n : N) : forall s t,
  pretty_N_go n s +:+ t = pretty_N_go n (s +:+ t).
Proof.
  induction (N.lt_wf_0 n) as [n _ IH]. intros s t.
  destruct (N.eq_dec n 0%N) as [->|Hn].
  - rewrite !pretty_N_go_0. reflexivity.
  - rewrite (pretty_N_go_step n s), (pretty_N_go_step n (s +:+ t)) by lia.
    rewrite IH by (apply N.div_lt; lia). reflexivity.
Qed.

(** Reading the digits printed for [n] in front of [s] continues on [s]
    with [n] appended to the digits read so far. *)
Lemma read_digits_pretty (n : N) : forall s acc,
  exists k : N,
    read_digits (pretty_N_go n s) acc = read_digits s (acc * 10 ^ k + n)%N.
Proof.
  induction (N.lt_wf_0 n) as [n _ IH]. intros s acc.
  destruct (N.eq_dec n 0%N) as [->|Hn].
  - exists 0%N. rewrite pretty_N_go_0. f_equal. lia.
  - rewrite pretty_N_go_step by lia.
    destruct (IH (n `div` 10)%N ltac:(apply N.div_lt; lia)
                (String (pretty_N_char (n `mod` 10)) s) acc) as [k Hk].
    exists (k + 1)%N. rewrite Hk. cbn [read_digits].
    destruct (digit_of_char (n `mod` 10)%N) as [Hd Hv].
    { apply N.mod_lt. lia. }
    rewrite Hd, Hv. f_equal.
    rewrite N.pow_add_r, N.pow_1_r.
    pose proof (N.div_mod n 10 ltac:(lia)). lia.
Qed.

(** The first character printed for a positive number is a digit from 1
    to 9. *)
Lemma pretty_N_go_head (n : N) : forall s,
  (0 < n)%N ->
  exists c r,
    pretty_N_go n s = String c r
    /\ is_digit c = true /\ Ascii.eqb c "0" = false.
Proof.
  induction (N.lt_wf_0 n) as [n _ IH]. intros s Hn.
  rewrite pretty_N_go_step by lia.
  destruct (N.eq_dec (n `div` 10)%N 0%N) as [Hq|Hq].
  - rewrite Hq, pretty_N_go_0. eexists. eexists. split; [reflexivity|].
    assert (n < 10)%N as Hlt.
    { apply N.div_small_iff in Hq; lia. }
    rewrite N.mod_small by lia.
    assert (n = 1 \/ n = 2 \/ n = 3 \/ n = 4 \/ n = 5 \/ n = 6
            \/ n = 7 \/ n = 8 \/ n = 9)%N as Hcases by lia.
    repeat (destruct Hcases as [->|Hcases]; [split; reflexivity|]).
    subst n. split; reflexivity.
  - apply IH; [apply N.div_lt; lia | apply N.neq_0_lt_0; exact Hq].
Qed.

(** Text that ends an integer token stops the three readers of a number. *)
Lemma delimits_stops (s : string) :
  delimits s = true ->
  (forall acc, read_digits s acc = (acc, s))
  /\ read_frac s = Some (None, s)
  /\ read_exp s = Some (false, s).
Proof.
  destruct s as [|c s']; [intros _; repeat split|].
  unfold delimits. intros H. apply negb_true_iff in H.
  apply orb_false_iff in H as [H HE].
  apply orb_false_iff in H as [H He].
  apply orb_false_iff in H as [Hd Hp].
  cbn. rewrite Hd, Hp, He, HE. repeat split.
Qed.

(** A digit is one of the ten characters. *)
Lemma is_digit_cases (c : ascii) :
  is_digit c = true ->
  c = "0"%char \/ c = "1"%char \/ c = "2"%char \/ c = "3"%char
  \/ c = "4"%char \/ c = "5"%char \/ c = "6"%char \/ c = "7"%char
  \/ c = "8"%char \/ c = "9"%char.
Proof.
  destruct c as [[] [] [] [] [] [] [] []]; cbn; intros H;
    try discriminate H; tauto.
Qed.

(** [read_int] on the digits printed for a positive number. *)
Lemma read_int_pretty (p : positive) (rest : string) :
  delimits rest = true ->
  exists c r,
    pretty_N_go (Npos p) EmptyString +:+ rest = String c r
    /\ is_digit c = true /\ Ascii.eqb c "0" = false
    /\ read_int (String c r) = Some (Npos p, rest).
Proof.
  intros Hrest. rewrite pretty_N_go_app. cbn [String.append].
  destruct (pretty_N_go_head (Npos p) rest ltac:(lia)) as (c & r & E & Hd & H0).
  exists c, r. split; [exact E|]. split; [exact Hd|]. split; [exact H0|].
  unfold read_int. rewrite H0, Hd. rewrite <- E.
  destruct (read_digits_pretty (Npos p) rest 0%N) as [k Hk].
  rewrite Hk. destruct (delimits_stops rest Hrest) as (Hstop & _ & _).
  rewrite Hstop. reflexivity.
Qed.

(** Printing an integer and reading it back, in front of any text that
    ends the token. *)
Lemma read_number_to_string (z : Z) (rest : string) :
  delimits rest = true ->
  exists c r,
    number_to_string z +:+ rest = String c r
    /\ (is_digit c = true \/ c = "-"%char)
    /\ read_number (String c r) = Some (JNum z, rest).
Proof.
  intros Hrest. destruct (delimits_stops rest Hrest) as (_ & Hfrac & Hexp).
  destruct z as [|p|p].
  - exists "0"%char, rest. split; [reflexivity|]. split; [left; reflexivity|].
    unfold read_number. cbn. rewrite Hfrac. cbn. rewrite Hexp. reflexivity.
  - destruct (read_int_pretty p rest Hrest) as (c & r & E & Hd & H0 & Hr).
    exists c, r. split; [exact E|]. split; [left; exact Hd|].
    unfold read_number.
    replace (Ascii.eqb c "-") with false
      by (destruct (is_digit_cases c Hd) as
            [->|[->|[->|[->|[->|[->|[->|[->|[->| ->]]]]]]]]]; reflexivity).
    rewrite Hr. cbn. rewrite Hfrac. cbn. rewrite Hexp. reflexivity.
  - destruct (read_int_pretty p rest Hrest) as (c & r & E & Hd & H0 & Hr).
    exists "-"%char, (String c r). split.
    { change (number_to_string (Z.neg p))
        with ("-" +:+ pretty_N_go (Npos p) EmptyString).
      cbn [String.append]. rewrite <- E. reflexivity. }
    split; [right; reflexivity|].
    unfold read_number.
    replace (Ascii.eqb "-" "-") with true by reflexivity.
    rewrite Hr. cbn. rewrite Hfrac. cbn. rewrite Hexp. reflexivity.
Qed.

(** [read_value] on a printed integer. *)
Lemma read_value_number (fuel : nat) (z : Z) (rest : string) :
  delimits rest = true ->
  read_value (S fuel) (number_to_string z +:+ rest) = Some (JNum z, rest).
Proof.
  intros Hrest.
  destruct (read_number_to_string z rest Hrest) as (c & r & -> & Hc & Hr).
  rewrite <- Hr.
  assert (c = "-"%char \/ is_digit c = true) as [->|Hd] by tauto.
  - reflexivity.
  - destruct (is_digit_cases c Hd) as
      [->|[->|[->|[->|[->|[->|[->|[->|[->| ->]]]]]]]]]; reflexivity.
Qed.

(** The readers on the fixed text around the two numbers. *)
Lemma read_value_open_x (f : nat) (rest : string) :
  read_value (S (S f)) ("{" +:+ quoted "x" +:+ ":" +:+ rest) =
    '(ms, r') ← ('(v, r3) ← read_value f rest;
                 '(c, r4) ← next_char r3;
                 if Ascii.eqb c ","%char
                 then '(ms, r5) ← read_members f r4;
                      Some (("x"%string, v) :: ms, r5)
                 else if Ascii.eqb c "}"%char
                      then Some ([("x"%string, v)], r4)
                      else None);
    Some (JObj ms, r').
Proof. reflexivity. Qed.

Lemma read_members_y (f : nat) (rest : string) :
  read_members (S f) (" " +:+ quoted "y" +:+ ":" +:+ rest) =
    '(v, r3) ← read_value f rest;
    '(c, r4) ← next_char r3;
    if Ascii.eqb c ","%char
    then '(ms, r5) ← read_members f r4; Some (("y"%string, v) :: ms, r5)
    else if Ascii.eqb c "}"%char then Some ([("y"%string, v)], r4)
    else None.
Proof. reflexivity. Qed.

#[local] Arguments read_value : simpl never.
#[local] Arguments read_members : simpl never.
#[local] Arguments read_items : simpl never.

(** What [JSON.parse] makes of the recorded offset. *)
Lemma parse_annotation (tx ty : Z) :
  JSON.parse (annotation tx ty) = Some (xy_object tx ty).
Proof.
  unfold JSON.parse.
  assert (exists f, (2 * String.length (annotation tx ty) + 2)%nat
                    = S (S (S (S f)))) as [f ->].
  { assert (1 <= String.length (annotation tx ty))%nat as Hlen.
    { unfold annotation; cbn [String.append String.length]. lia. }
    exists (2 * String.length (annotation tx ty) - 2)%nat. lia. }
  unfold annotation.
  rewrite read_value_open_x.
  rewrite read_value_number by reflexivity. cbn.
  change (String " " (String quote (String "y" (String quote
            (String ":" (number_to_string ty +:+ "}"))))))
    with (" " +:+ quoted "y" +:+ ":" +:+ number_to_string ty +:+ "}").
  rewrite read_members_y.
  rewrite read_value_number by reflexivity. cbn.
  reflexivity.
Qed.

Lemma read_members_y_tight (f : nat) (rest : string) :
  read_members (S f) (quoted "y" +:+ ":" +:+ rest) =
    '(v, r3) ← read_value f rest;
    '(c, r4) ← next_char r3;
    if Ascii.eqb c ","%char
    then '(ms, r5) ← read_members f r4; Some (("y"%string, v) :: ms, r5)
    else if Ascii.eqb c "}"%char then Some ([("y"%string, v)], r4)
    else None.
Proof. reflexivity. Qed.

(** What [JSON.parse] makes of the stored offset. *)
Lemma parse_stringify (tx ty : Z) :
  JSON.parse (JSON.stringify tx ty) = Some (xy_object tx ty).
Proof.
  unfold JSON.parse.
  assert (exists f, (2 * String.length (JSON.stringify tx ty) + 2)%nat
                    = S (S (S (S f)))) as [f ->].
  { assert (1 <= String.length (JSON.stringify tx ty))%nat as Hlen.
    { unfold JSON.stringify; cbn [String.append String.length]. lia. }
    exists (2 * String.length (JSON.stringify tx ty) - 2)%nat. lia. }
  unfold JSON.stringify.
  rewrite read_value_open_x.
  rewrite read_value_number by reflexivity. cbn.
  change (String quote (String "y" (String quote
            (String ":" (number_to_string ty +:+ "}")))))
    with (quoted "y" +:+ ":" +:+ number_to_string ty +:+ "}").
  rewrite read_members_y_tight.
  rewrite read_value_number by reflexivity. cbn.
  reflexivity.
Qed.

(** ** The fuel of [JSON.parse] *)

Lemma skip_ws_length (s : string) :
  (String.length (skip_ws s) <= String.length s)%nat.
Proof.
  induction s as [|c s IH]; [reflexivity|]. cbn [skip_ws].
  destruct (is_ws c); cbn [String.length]; lia.
Qed.

Lemma strip_length (p : string) : forall s r,
  strip p s = Some r ->
  String.length s = (String.length p + String.length r)%nat.
Proof.
  induction p as [|a p IH]; intros s r.
  - cbn. intros H; injection H as <-. reflexivity.
  - destruct s as [|c s]; cbn [strip]; [discriminate|].
    destruct (Ascii.eqb a c); [|discriminate].
    intros H. apply IH in H. cbn [String.length]. lia.
Qed.

Lemma read_digits_length (s : string) : forall acc,
  (String.length (snd (read_digits s acc)) <= String.length s)%nat.
Proof.
  induction s as [|c s IH]; intros acc; [reflexivity|]. cbn [read_digits].
  destruct (is_digit c).
  - specialize (IH (acc * 10 + digit_val c)%N). cbn [String.length]. lia.
  - reflexivity.
Qed.

Lemma read_int_length (s : string) (n : N) (r : string) :
  read_int s = Some (n, r) -> (String.length r < String.length s)%nat.
Proof.
  destruct s as [|c s]; [discriminate|]. unfold read_int.
  destruct (Ascii.eqb c "0").
  - intros H; injection H as _ <-. cbn [String.length]. lia.
  - destruct (is_digit c) eqn:Hd; [|discriminate].
    intros H; injection H as H.
    pose proof (read_digits_length s (0 * 10 + digit_val c)%N) as Hl.
    cbn [read_digits] in H. rewrite Hd in H. rewrite H in Hl.
    cbn [snd String.length] in *. lia.
Qed.

Lemma span_digits_length (s : string) : forall k nz r,
  span_digits s = (k, nz, r) ->
  String.length s = (k + String.length r)%nat.
Proof.
  induction s as [|c s IH]; intros k nz r; cbn [span_digits].
  - intros H; injection H as <- _ <-. reflexivity.
  - destruct (is_digit c).
    + destruct (span_digits s) as [[k' nz'] r'].
      intros H; injection H as <- _ <-.
      cbn [String.length]. rewrite (IH k' nz' r' eq_refl). lia.
    + intros H; injection H as <- _ <-. reflexivity.
Qed.

Lemma read_frac_length (s : string) (o : option bool) (r : string) :
  read_frac s = Some (o, r) -> (String.length r <= String.length s)%nat.
Proof.
  destruct s as [|c s]; unfold read_frac.
  - intros H; injection H as _ <-. reflexivity.
  - destruct (Ascii.eqb c ".").
    + destruct (span_digits s) as [[k nz] r'] eqn:E.
      destruct k; [discriminate|]. intros H; injection H as _ <-.
      apply span_digits_length in E. cbn [String.length]. lia.
    + intros H; injection H as _ <-. reflexivity.
Qed.

Lemma read_exp_length (s : string) (b : bool) (r : string) :
  read_exp s = Some (b, r) -> (String.length r <= String.length s)%nat.
Proof.
  destruct s as [|c s]; unfold read_exp.
  - intros H; injection H as _ <-. reflexivity.
  - destruct (Ascii.eqb c "e" || Ascii.eqb c "E").
    + destruct (span_digits _) as [[k nz] r'] eqn:E.
      destruct k; [discriminate|]. intros H; injection H as _ <-.
      apply span_digits_length in E. cbn [String.length].
      destruct s as [|c' s']; [cbn [String.length] in E; lia|].
      destruct (Ascii.eqb c' "+" || Ascii.eqb c' "-");
        cbn [String.length] in *; lia.
    + intros H; injection H as _ <-. reflexivity.
Qed.

Lemma read_number_length (s : string) (v : json) (r : string) :
  read_number s = Some (v, r) -> (String.length r < String.length s)%nat.
Proof.
  unfold read_number.
  destruct (match s with
            | String c r0 => if Ascii.eqb c "-" then (true, r0) else (false, s)
            | EmptyString => (false, s)
            end) as [neg s1] eqn:Es.
  assert (String.length s1 <= String.length s)%nat as Hs1.
  { destruct s as [|c s']; [injection Es as _ <-; reflexivity|].
    destruct (Ascii.eqb c "-"); injection Es as _ <-;
      cbn [String.length]; lia. }
  destruct (read_int s1) as [[n r1]|] eqn:E1; [|discriminate].
  apply read_int_length in E1.
  cbn [mbind option_bind].
  destruct (read_frac r1) as [[fr r2]|] eqn:E2; [|discriminate].
  apply read_frac_length in E2.
  cbn [mbind option_bind].
  destruct (read_exp r2) as [[ex r3]|] eqn:E3; [|discriminate].
  apply read_exp_length in E3.
  cbn [mbind option_bind].
  destruct fr as [nz|]; [|destruct ex]; intros H; injection H as _ <-; lia.
Qed.

Lemma read_string_length_bounded (n : nat) : forall s t r,
  (String.length s <= n)%nat ->
  read_string s = Some (t, r) -> (String.length r < String.length s)%nat.
Proof.
  induction n as [|n IH]; intros s t r Hn.
  - destruct s; [discriminate|cbn [String.length] in Hn; lia].
  - destruct s as [|c r0]; [discriminate|]. cbn [read_string String.length] in *.
    destruct (Ascii.eqb c quote).
    { intros H; injection H as _ <-. lia. }
    destruct (N_of_ascii c <? 32)%N; [discriminate|].
    destruct (Ascii.eqb c backslash).
    + destruct r0 as [|e r1]; [discriminate|]. cbn [String.length] in *.
      destruct (Ascii.eqb e "u").
      * destruct r1 as [|h1 [|h2 [|h3 [|h4 r2]]]]; try discriminate.
        destruct (hex4 h1 h2 h3 h4); [|discriminate].
        cbn [mbind option_bind String.length] in *.
        destruct (read_string r2) as [[t' r']|] eqn:E; [|discriminate].
        apply IH in E; [|lia].
        cbn [mbind option_bind]. intros H; injection H as _ <-. lia.
      * destruct (simple_escape e); [|discriminate].
        cbn [mbind option_bind].
        destruct (read_string r1) as [[t' r']|] eqn:E; [|discriminate].
        apply IH in E; [|lia].
        cbn [mbind option_bind]. intros H; injection H as _ <-. lia.
    + destruct (read_string r0) as [[t' r']|] eqn:E; [|discriminate].
      apply IH in E; [|lia].
      cbn [mbind option_bind]. intros H; injection H as _ <-. lia.
Qed.

Lemma read_string_length (s t r : string) :
  read_string s = Some (t, r) -> (String.length r < String.length s)%nat.
Proof. apply (read_string_length_bounded (String.length s)). lia. Qed.

Lemma next_char_length (s : string) (c : ascii) (r : string) :
  next_char s = Some (c, r) -> (String.length r < String.length s)%nat.
Proof.
  unfold next_char. pose proof (skip_ws_length s) as Hs.
  destruct (skip_ws s) as [|c' r']; [discriminate|].
  intros H; injection H as _ <-. cbn [String.length] in Hs. lia.
Qed.

(** What an opening leaves of the text. *)
Lemma opening_of_length (s : string) :
  match opening_of s with
  | OLiteral _ r => (String.length r < String.length s)%nat
  | OString r | OArray r | OObject r => String.length s = S (String.length r)
  | ONumber s' => s' = s
  end.
Proof.
  unfold opening_of.
  destruct (strip "null" s) as [r|] eqn:E1.
  { apply strip_length in E1. cbn [String.length] in E1. lia. }
  destruct (strip "true" s) as [r|] eqn:E2.
  { apply strip_length in E2. cbn [String.length] in E2. lia. }
  destruct (strip "false" s) as [r|] eqn:E3.
  { apply strip_length in E3. cbn [String.length] in E3. lia. }
  destruct s as [|c r]; [reflexivity|].
  destruct (Ascii.eqb c quote); [reflexivity|].
  destruct (Ascii.eqb c "["); [reflexivity|].
  destruct (Ascii.eqb c "{"); reflexivity.
Qed.

(** One unfolding of the three readers. *)
Lemma read_value_S (fuel : nat) (s : string) :
  read_value (S fuel) s =
    match opening_of (skip_ws s) with
    | OLiteral v r => Some (v, r)
    | OString r => '(t, r') ← read_string r; Some (JStr t, r')
    | OArray r =>
        match strip "]" (skip_ws r) with
        | Some r' => Some (JArr [], r')
        | None => '(vs, r') ← read_items fuel r; Some (JArr vs, r')
        end
    | OObject r =>
        match strip "}" (skip_ws r) with
        | Some r' => Some (JObj [], r')
        | None => '(ms, r') ← read_members fuel r; Some (JObj ms, r')
        end
    | ONumber s' => read_number s'
    end.
Proof. reflexivity. Qed.

Lemma read_items_S (fuel : nat) (s : string) :
  read_items (S fuel) s =
    '(v, r) ← read_value fuel s;
    '(c, r') ← next_char r;
    if Ascii.eqb c ","%char
    then '(vs, r'') ← read_items fuel r'; Some (v :: vs, r'')
    else if Ascii.eqb c "]"%char then Some ([v], r')
    else None.
Proof. reflexivity. Qed.

Lemma read_members_S (fuel : nat) (s : string) :
  read_members (S fuel) s =
    r ← strip (String quote EmptyString) (skip_ws s);
    '(k, r1) ← read_string r;
    r2 ← strip ":" (skip_ws r1);
    '(v, r3) ← read_value fuel r2;
    '(c, r4) ← next_char r3;
    if Ascii.eqb c ","%char
    then '(ms, r5) ← read_members fuel r4; Some ((k, v) :: ms, r5)
    else if Ascii.eqb c "}"%char then Some ([(k, v)], r4)
    else None.
Proof. reflexivity. Qed.

(** A reader that succeeds with some fuel consumed part of the text, and
    succeeds with the same result on any fuel of at least twice the number
    of characters it consumed. *)
Lemma readers_fuel (f : nat) :
  (forall s v r,
     read_value f s = Some (v, r) ->
     (String.length r < String.length s)%nat
     /\ forall g, (2 * (String.length s - String.length r) <= g)%nat ->
                  read_value g s = Some (v, r))
  /\ (forall s vs r,
        read_items f s = Some (vs, r) ->
        (String.length r + 2 <= String.length s)%nat
        /\ forall g, (2 * (String.length s - String.length r) <= g)%nat ->
                     read_items g s = Some (vs, r))
  /\ (forall s ms r,
        read_members f s = Some (ms, r) ->
        (String.length r + 2 <= String.length s)%nat
        /\ forall g, (2 * (String.length s - String.length r) <= g)%nat ->
                     read_members g s = Some (ms, r)).
Proof.
  induction f as [|f (IHv & IHi & IHm)].
  { repeat split; discriminate. }
  split; [|split].
  - intros s v r H. rewrite read_value_S in H.
    pose proof (skip_ws_length s) as Hws.
    pose proof (opening_of_length (skip_ws s)) as Hop.
    destruct (opening_of (skip_ws s)) as [v0 r0|r0|r0|r0|s'] eqn:Eo.
    + injection H as <- <-. split; [lia|].
      intros [|g] Hg; [lia|]. rewrite read_value_S, Eo. reflexivity.
    + destruct (read_string r0) as [[t r']|] eqn:Es; [|discriminate].
      cbn [mbind option_bind] in H. injection H as <- <-.
      pose proof (read_string_length _ _ _ Es). split; [lia|].
      intros [|g] Hg; [lia|]. rewrite read_value_S, Eo, Es. reflexivity.
    + destruct (strip "]" (skip_ws r0)) as [r'|] eqn:Ec.
      * injection H as <- <-.
        pose proof (strip_length _ _ _ Ec) as Hc.
        pose proof (skip_ws_length r0). cbn [String.length] in Hc.
        split; [lia|].
        intros [|g] Hg; [lia|]. rewrite read_value_S, Eo, Ec. reflexivity.
      * destruct (read_items f r0) as [[vs r']|] eqn:Ei; [|discriminate].
        cbn [mbind option_bind] in H. injection H as <- <-.
        destruct (IHi _ _ _ Ei) as [Hlen Hfuel]. split; [lia|].
        intros [|g] Hg; [lia|]. rewrite read_value_S, Eo, Ec.
        rewrite (Hfuel g) by lia. reflexivity.
    + destruct (strip "}" (skip_ws r0)) as [r'|] eqn:Ec.
      * injection H as <- <-.
        pose proof (strip_length _ _ _ Ec) as Hc.
        pose proof (skip_ws_length r0). cbn [String.length] in Hc.
        split; [lia|].
        intros [|g] Hg; [lia|]. rewrite read_value_S, Eo, Ec. reflexivity.
      * destruct (read_members f r0) as [[ms r']|] eqn:Em; [|discriminate].
        cbn [mbind option_bind] in H. injection H as <- <-.
        destruct (IHm _ _ _ Em) as [Hlen Hfuel]. split; [lia|].
        intros [|g] Hg; [lia|]. rewrite read_value_S, Eo, Ec.
        rewrite (Hfuel g) by lia. reflexivity.
    + subst s'. pose proof (read_number_length _ _ _ H). split; [lia|].
      intros [|g] Hg; [lia|]. rewrite read_value_S, Eo. exact H.
  - intros s vs r H. rewrite read_items_S in H.
    destruct (read_value f s) as [[v r1]|] eqn:Ev; [|discriminate].
    cbn [mbind option_bind] in H.
    destruct (next_char r1) as [[c r2]|] eqn:En; [|discriminate].
    cbn [mbind option_bind] in H.
    destruct (IHv _ _ _ Ev) as [Hlen1 Hfuel1].
    pose proof (next_char_length _ _ _ En) as Hlen2.
    destruct (Ascii.eqb c ",") eqn:Ecomma.
    + destruct (read_items f r2) as [[vs' r3]|] eqn:Ei; [|discriminate].
      cbn [mbind option_bind] in H. injection H as <- <-.
      destruct (IHi _ _ _ Ei) as [Hlen3 Hfuel3]. split; [lia|].
      intros [|g] Hg; [lia|]. rewrite read_items_S.
      rewrite (Hfuel1 g) by lia. cbn [mbind option_bind].
      rewrite En. cbn [mbind option_bind]. rewrite Ecomma.
      rewrite (Hfuel3 g) by lia. reflexivity.
    + destruct (Ascii.eqb c "]") eqn:Eclose; [|discriminate].
      injection H as <- <-. split; [lia|].
      intros [|g] Hg; [lia|]. rewrite read_items_S.
      rewrite (Hfuel1 g) by lia. cbn [mbind option_bind].
      rewrite En. cbn [mbind option_bind]. rewrite Ecomma, Eclose.
      reflexivity.
  - intros s ms r H. rewrite read_members_S in H.
    pose proof (skip_ws_length s) as Hws.
    destruct (strip (String quote EmptyString) (skip_ws s)) as [r0|] eqn:Eq;
      [|discriminate].
    pose proof (strip_length _ _ _ Eq) as Hq. cbn [String.length] in Hq.
    cbn [mbind option_bind] in H.
    destruct (read_string r0) as [[k r1]|] eqn:Es; [|discriminate].
    pose proof (read_string_length _ _ _ Es) as Hs.
    cbn [mbind option_bind] in H.
    pose proof (skip_ws_length r1) as Hws1.
    destruct (strip ":" (skip_ws r1)) as [r2|] eqn:Ec; [|discriminate].
    pose proof (strip_length _ _ _ Ec) as Hc. cbn [String.length] in Hc.
    cbn [mbind option_bind] in H.
    destruct (read_value f r2) as [[v r3]|] eqn:Ev; [|discriminate].
    cbn [mbind option_bind] in H.
    destruct (next_char r3) as [[c r4]|] eqn:En; [|discriminate].
    cbn [mbind option_bind] in H.
    destruct (IHv _ _ _ Ev) as [Hlen1 Hfuel1].
    pose proof (next_char_length _ _ _ En) as Hlen2.
    destruct (Ascii.eqb c ",") eqn:Ecomma.
    + destruct (read_members f r4) as [[ms' r5]|] eqn:Em; [|discriminate].
      cbn [mbind option_bind] in H. injection H as <- <-.
      destruct (IHm _ _ _ Em) as [Hlen3 Hfuel3]. split; [lia|].
      intros [|g] Hg; [lia|]. rewrite read_members_S, Eq.
      cbn [mbind option_bind]. rewrite Es. cbn [mbind option_bind].
      rewrite Ec. cbn [mbind option_bind].
      rewrite (Hfuel1 g) by lia. cbn [mbind option_bind].
      rewrite En. cbn [mbind option_bind]. rewrite Ecomma.
      rewrite (Hfuel3 g) by lia. reflexivity.
    + destruct (Ascii.eqb c "}") eqn:Eclose; [|discriminate].
      injection H as <- <-. split; [lia|].
      intros [|g] Hg; [lia|]. rewrite read_members_S, Eq.
      cbn [mbind option_bind]. rewrite Es. cbn [mbind option_bind].
      rewrite Ec. cbn [mbind option_bind].
      rewrite (Hfuel1 g) by lia. cbn [mbind option_bind].
      rewrite En. cbn [mbind option_bind]. rewrite Ecomma, Eclose.
      reflexivity.
Qed.

(** The fuel of [JSON.parse] is enough: whatever [read_value] reads from a
    text with some fuel, it reads with the fuel [parse] gives it. *)
Lemma parse_fuel_enough (f : nat) (text : string) (v : json) (r : string) :
  read_value f text = Some (v, r) ->
  read_value (2 * String.length text + 2) text = Some (v, r).
Proof.
  intros H. destruct (readers_fuel f) as (Hv & _ & _).
  destruct (Hv _ _ _ H) as [_ Hfuel]. apply Hfuel. lia.
Qed.

(** ** The clamp *)

Lemma correction_spec (max c : Z) :
  correction (Some max) c = spec_clamp_axis max c.
Proof. reflexivity. Qed.


(** A coordinate in range is not corrected. *)
Lemma correction_in_range (max c : Z) :
  within max c -> correction (Some max) c = 0.
Proof.
  unfold within, correction. intros [? ?].
  destruct (Z.ltb_spec (max - c) 0); [lia|].
  destruct (Z.ltb_spec c 0); lia.
Qed.


(** [_setProperties] either throws the position error or succeeds. *)
Lemma _setProperties_Ok_inv h w w' :
  _setProperties h w = Ok w' ->
  let rect := boundingClientRect h in
  let dims := container (Some (computed_position h)) h in
  this w' =
    {| id := id (this w); store := store (this w);
       enabled := enabled (this w);
       position := Some (computed_position h);
       elementRect := rect; dimensions := dims;
       borderH := borderLeft h + borderRight h;
       borderV := borderTop h + borderBottom h;
       thresholdX :=
         Some (x dims - (rect_width rect + (borderLeft h + borderRight h)));
       thresholdY :=
         Some (y dims - (rect_height rect + (borderTop h + borderBottom h)));
       pos_1 := 0; pos_2 := 0; pos_3 := 0; pos_4 := 0;
       translateX := 0; translateY := 0;
       offsetLeft := rect_left rect; offsetTop := rect_top rect |}
  /\ el w' = set_dataset_translate zero_annotation (el w)
  /\ localStorage w' =
       (if store (this w) then localStorage w
        else delete (id (this w)) (localStorage w))
  /\ registered w' = registered w.
Proof.
  unfold _setProperties. intros H.
  destruct (enabled (this w) && _); [discriminate|].
  injection H as <-. cbn. auto.
Qed.

(** C2. The thresholds [_setProperties] stores are the container size minus
    the element size plus the border sums; [_getThresholds] returns on each
    axis the correction of the specification; [_drag] and [_getPos] add the
    correction to the offset they hold. *)
Theorem C2_threshold_and_additive_correction h w w' :
  _setProperties h w = Ok w' ->
  let range :=
    computeThresholdRange (container (Some (computed_position h)) h)
      {| x := rect_width (boundingClientRect h);
         y := rect_height (boundingClientRect h) |}
      {| x := borderLeft h + borderRight h;
         y := borderTop h + borderBottom h |} in
  thresholdX (this w') = Some (x range)
  /\ thresholdY (this w') = Some (y range)
  /\ (forall top left,
        _getThresholds (this w') top left =
          {| x := spec_clamp_axis (x range) left;
             y := spec_clamp_axis (y range) top |})
  /\ (forall e,
        let t := this w' in
        let tx := translateX t - (pos_3 t - clientX e) in
        let ty := translateY t - (pos_4 t - clientY e) in
        let c := _getThresholds t (ty + offsetTop t) (tx + offsetLeft t) in
        translateX (this (_drag e w')) = tx + x c
        /\ translateY (this (_drag e w')) = ty + y c
        /\ style_translate (el (_drag e w')) = translate_px (tx + x c) (ty + y c))
  /\ (forall h' px py,
        let rect := boundingClientRect h' in
        let c := _getThresholds (this w')
                   (py + (rect_top rect - py)) (px + (rect_left rect - px)) in
        exists w'',
          _getPos h' (xy_object px py) w' =
            Ok ({| x := px + x c; y := py + y c |}, w'')).
Proof.
  intros H. apply _setProperties_Ok_inv in H as (Ht & _ & _ & _).
  destruct w' as [t' e' ls' r']. cbn in Ht. subst t'.
  split; [reflexivity|]. split; [reflexivity|].
  split; [reflexivity|]. split.
  - intros e. repeat split.
  - intros h' px py. eexists. reflexivity.
Qed.

Lemma C2_witness :
  exists w',
    _setProperties (page Fixed (box 0 0) 800 600)
      (new_world "box" false true plain_element ∅) = Ok w'
    /\ thresholdX (this w') = Some 700
    /\ thresholdY (this w') = Some 550
    /\ _getThresholds (this w') 30 750 = {| x := -50; y := 0 |}.
Proof.
  eexists. split; [reflexivity|].
  destruct (C2_threshold_and_additive_correction
              (page Fixed (box 0 0) 800 600)
              (new_world "box" false true plain_element ∅) _ eq_refl)
    as (Hx & Hy & Hc & _).
  split; [exact Hx|]. split; [exact Hy|]. exact (Hc 30 750).
Defined.




(** ** The drag session *)








(** With a negative range no corner is in range: in a viewport of 60 by 40
    the element of 100 by 50 dragged 50 to the right renders the corner
    (-40, -10). *)
Lemma drag_negative_range_example :
  exists w0 w1,
    constructor (page Fixed (box 0 0) 60 40) plain_element ∅
      (Some "box"%string) HTMLElement HTMLElement false true = Ok w0
    /\ _mousedown (page Fixed (box 0 0) 60 40) (press 10 10) w0 = Ok w1
    /\ press_range (page Fixed (box 0 0) 60 40) w0 = {| x := -40; y := -10 |}
    /\ style_translate (el (_drag (press 60 10) w1)) = translate_px (-40) (-10).
Proof.
  eexists. eexists.
  split; [vm_compute; reflexivity|]. split; [vm_compute; reflexivity|].
  split; reflexivity.
Qed.

(** After [stop] and [start] the recorded offset is (0, 0) while the element
    still renders the translation of the last drag, so the next press takes
    the translated box for the layout position: the element laid out at
    left 0 and dragged 50 to the right, stopped, started, pressed again and
    dragged 50 to the left renders the translation -50, the corner -50. *)
Lemma drag_after_restart_example :
  exists w0 w1 w2,
    constructor (page Fixed (box 0 0) 800 600) plain_element ∅
      (Some "box"%string) HTMLElement HTMLElement false true = Ok w0
    /\ run [(page Fixed (box 0 0) 800 600, mousedown (press 10 10));
            (page Fixed (box 0 0) 800 600, mousemove (press 60 10));
            (page Fixed (box 50 0) 800 600, mouseup (press 60 10));
            (page Fixed (box 50 0) 800 600, call_stop);
            (page Fixed (box 50 0) 800 600, call_start)] w0 = Some w1
    /\ laid_out_at 0 0 (page Fixed (box 50 0) 800 600) (el w1)
    /\ ~ recorded_is_rendered (el w1)
    /\ run [(page Fixed (box 50 0) 800 600, mousedown (press 60 10));
            (page Fixed (box 50 0) 800 600, mousemove (press 10 10))] w1
       = Some w2
    /\ style_translate (el w2) = translate_px (-50) 0.
Proof.
  eexists. eexists. eexists.
  split; [vm_compute; reflexivity|]. split; [vm_compute; reflexivity|].
  split; [split; reflexivity|].
  split; [intros H; vm_compute in H; discriminate H|].
  split; [vm_compute; reflexivity | reflexivity].
Qed.

(** On fractional pixel values the doubles of the source part from the
    exact arithmetic. The element laid out at left 24.1 with the threshold
    672.3, dragged 1000 to the right, renders the corner
    672.3000000000001, beyond the threshold. *)
Lemma drag_corner_exceeds_threshold_in_doubles :
  PrimFloat.ltb 672.3%float
    (PrimFloat.add
       (Double._drag 672.3%float (Double.offset 24.1%float 0%float)
          0%float 0%float 1000%float)
       (Double.offset 24.1%float 0%float)) = true.
Proof. vm_compute. reflexivity. Qed.

(** With the container 60 and the element 100.4 wide the threshold is
    -40.400000000000006; the proposed coordinate 50.1 is corrected to
    -40.4, which is not the threshold. *)
Lemma corrected_coordinate_misses_threshold_in_doubles :
  PrimFloat.eqb
    (PrimFloat.add 50.1%float
       (Double.correction (PrimFloat.sub 60%float 100.4%float) 50.1%float))
    (PrimFloat.sub 60%float 100.4%float) = false.
Proof. vm_compute. reflexivity. Qed.

(** The pre-drag pixel offset plus the translation is not always the
    measured coordinate: (0.1 - 0.4) + 0.4 is 0.09999999999999998. *)
Lemma offset_plus_translation_in_doubles :
  PrimFloat.eqb
    (PrimFloat.add (Double.offset 0.1%float 0.4%float) 0.4%float)
    0.1%float = false.
Proof. vm_compute. reflexivity. Qed.

(** Two moves in range, from the pointer at 0 to 0.2 and on to 0.9, render
    the translation 0.8999999999999999, not the distance 0.9 of the pointer
    from the press. *)
Lemma drag_drifts_in_doubles :
  PrimFloat.eqb
    (Double._drag 1000%float 100%float
       (Double._drag 1000%float 100%float 0%float 0%float 0.2%float)
       0.2%float 0.9%float)
    0.9%float = false.
Proof. vm_compute. reflexivity. Qed.

(** The offset [_mousedown] reads from what [_stopDrag] recorded. *)
Lemma recorded_translate_stopDrag ev w :
  recorded_translate (el (_stopDrag ev w))
  = xy_object (translateX (this w)) (translateY (this w)).
Proof.
  unfold recorded_translate, _stopDrag. cbv zeta.
  destruct (store _); cbn -[annotation JSON.parse];
    rewrite parse_annotation; reflexivity.
Qed.

(** [_stopDrag] leaves the instance and the draggable flag alone. *)
Lemma _stopDrag_frame ev w :
  this (_stopDrag ev w) = this w
  /\ dataset_draggable (el (_stopDrag ev w)) = dataset_draggable (el w)
  /\ style_translate (el (_stopDrag ev w)) = style_translate (el w).
Proof.
  unfold _stopDrag. cbv zeta. destruct (store _); repeat split.
Qed.

(** X21. On integer pixel values the recorded offset makes the round trip:
    the text [_stopDrag] writes into [dataset.translate] at drag end is
    what the next accepted [_mousedown] reads, whatever the instance fields
    hold by then, so that the session starts from the offset the last one
    ended with. *)
Theorem recorded_offset_round_trip h ev e w t :
  pixel (translateX (this w)) ->
  pixel (translateY (this w)) ->
  accepted e w = true ->
  exists w',
    _mousedown h e (set_this t (_stopDrag ev w)) = Ok w'
    /\ dataset_translate (el (_stopDrag ev w))
       = Some (annotation (translateX (this w)) (translateY (this w)))
    /\ translateX (this w') = translateX (this w)
    /\ translateY (this w') = translateY (this w)
    /\ offsetLeft (this w')
       = rect_left (boundingClientRect h) - translateX (this w)
    /\ offsetTop (this w')
       = rect_top (boundingClientRect h) - translateY (this w).
Proof.
  unfold accepted. intros _ _ Hacc.
  apply andb_true_iff in Hacc as [Hacc Hb].
  apply andb_true_iff in Hacc as [Hd Ht].
  apply negb_true_iff in Hd.
  destruct (_stopDrag_frame ev w) as (Hthis & Hflag & _).
  unfold _mousedown. cbn [el set_this this].
  rewrite recorded_translate_stopDrag.
  replace (draggable_is_false (el (_stopDrag ev w))) with false
    by (unfold draggable_is_false in *; rewrite Hflag; symmetry; exact Hd).
  rewrite Ht, Hb. cbn -[annotation]. eexists. split; [reflexivity|].
  split; [|repeat split].
  unfold _stopDrag. cbv zeta. destruct (store _); reflexivity.
Qed.

Lemma recorded_offset_round_trip_witness :
  accepted (press 5 5)
    (set_translate (-37) 1204 (new_world "box" true true plain_element ∅))
  = true
  /\ exists w',
       _mousedown (page Fixed (box 0 0) 800 600) (press 5 5)
         (set_this (fresh_instance "box" true true)
            (_stopDrag (press 0 0)
               (set_translate (-37) 1204
                  (new_world "box" true true plain_element ∅))))
       = Ok w'
       /\ translateX (this w') = -37 /\ translateY (this w') = 1204.
Proof.
  split; [reflexivity|].
  destruct (recorded_offset_round_trip (page Fixed (box 0 0) 800 600)
              (press 0 0) (press 5 5)
              (set_translate (-37) 1204
                 (new_world "box" true true plain_element ∅))
              (fresh_instance "box" true true))
    as (w' & E & _ & Hx & Hy & _).
  - vm_compute; discriminate.
  - vm_compute; discriminate.
  - reflexivity.
  - exists w'. split; [exact E|]. split; [exact Hx | exact Hy].
Defined.

(** ** Reconciling a stored offset *)

(** [_getPos] corrects the offset by the clamp of the measured box: the
    offset it is given cancels out of the corner it clamps. *)
Lemma _getPos_measured_box h px py w :
  exists w',
    _getPos h (xy_object px py) w =
      Ok ({| x := px + correction (thresholdX (this w))
                         (rect_left (boundingClientRect h));
             y := py + correction (thresholdY (this w))
                         (rect_top (boundingClientRect h)) |}, w')
    /\ el w' = el w /\ localStorage w' = localStorage w
    /\ registered w' = registered w.
Proof.
  unfold _getPos, _getThresholds. cbn.
  replace (px + (rect_left (boundingClientRect h) - px))
    with (rect_left (boundingClientRect h)) by lia.
  replace (py + (rect_top (boundingClientRect h) - py))
    with (rect_top (boundingClientRect h)) by lia.
  eexists. split; [reflexivity|]. cbn. auto.
Qed.

(** While the measured box is in range, reconciling leaves every offset as
    it is. *)
Lemma _getPos_box_in_range h px py w maxX maxY :
  thresholdX (this w) = Some maxX ->
  thresholdY (this w) = Some maxY ->
  within maxX (rect_left (boundingClientRect h)) ->
  within maxY (rect_top (boundingClientRect h)) ->
  exists w', _getPos h (xy_object px py) w = Ok ({| x := px; y := py |}, w').
Proof.
  intros Hx Hy Hl Ht.
  destruct (_getPos_measured_box h px py w) as (w' & E & _).
  exists w'. rewrite E, Hx, Hy.
  rewrite (correction_in_range _ _ Hl), (correction_in_range _ _ Ht).
  repeat f_equal; lia.
Qed.

(** C3 at a failing input. The element is laid out at left -50 in a
    viewport of 800 by 600 and the store holds the offset (100, 0): the
    offset is within [0, 700] x [0, 550] and puts the corner at (50, 0),
    also in range. Restoring it on load records and renders (150, 0). *)
Theorem C3_reconcile_changes_valid_offset :
  exists w0,
    constructor (page Fixed (box (-50) 0) 800 600) plain_element
      {[ "box"%string := JSON.stringify 100 0 ]}
      (Some "box"%string) HTMLElement HTMLElement true true = Ok w0
    /\ thresholdX (this w0) = Some 700
    /\ thresholdY (this w0) = Some 550
    /\ translation_within {| x := 700; y := 550 |} (translate_px 100 0)
    /\ corner_within (-50) 0 {| x := 700; y := 550 |} (translate_px 100 0)
    /\ dataset_translate (el w0) = Some (annotation 150 0)
    /\ style_translate (el w0) = translate_px 150 0.
Proof.
  eexists. split; [vm_compute; reflexivity|].
  split; [reflexivity|]. split; [reflexivity|].
  split; [unfold translation_within, within; cbn; lia|].
  split; [unfold corner_within, within; cbn; lia|].
  split; reflexivity.
Qed.


Lemma _getPos_never_throws h data w ex w' : _getPos h data w <> Throw ex w'.
Proof.
  unfold _getPos.
  destruct (if JSON.truthy data then number_members data else _);
    discriminate.
Qed.

Lemma _updatePos_never_throws h payload w ex w' :
  _updatePos h payload w <> Throw ex w'.
Proof.
  unfold _updatePos. destruct payload as [s|]; [|discriminate].
  destruct (String.eqb s EmptyString); [discriminate|].
  destruct (_getPos h _ w) as [[pos w1]| |] eqn:E; cbn; try discriminate.
  exfalso. exact (_getPos_never_throws _ _ _ _ _ E).
Qed.

(** What [_mousedown] reads from a recorded template text. *)
Lemma recorded_translate_annotation e tx ty :
  dataset_translate e = Some (annotation tx ty) ->
  recorded_translate e = xy_object tx ty.
Proof.
  intros H. unfold recorded_translate. rewrite H.
  replace (String.eqb (annotation tx ty) EmptyString) with false
    by reflexivity.
  rewrite parse_annotation. reflexivity.
Qed.





(** ** Enabling and disabling *)

(** [stop] never touches the rendered translation nor the store; on an
    enabled instance it removes the four listeners, resets the recorded
    offset and clears the flag. *)
Lemma stop_effects w :
  style_translate (el (stop w)) = style_translate (el w)
  /\ localStorage (stop w) = localStorage w
  /\ (enabled (this w) = true ->
      registered (stop w) = no_listeners
      /\ dataset_translate (el (stop w)) = Some zero_annotation
      /\ enabled (this (stop w)) = false).
Proof.
  unfold stop. destruct (enabled (this w)); cbn.
  - repeat split.
  - repeat split; discriminate.
Qed.

(** C10. [stop] on a disabled instance and [start] on an enabled instance
    return at once and leave the whole state as it is. *)
Theorem C10_stop_start_early_return h w1 w2 :
  enabled (this w1) = false ->
  enabled (this w2) = true ->
  stop w1 = w1 /\ start h w2 = Ok w2.
Proof.
  intros H1 H2. unfold stop, start. rewrite H1, H2. split; reflexivity.
Qed.

Lemma C10_witness :
  enabled (this (new_world "box" true false plain_element ∅)) = false
  /\ enabled (this (new_world "box" true true plain_element ∅)) = true
  /\ stop (new_world "box" true false plain_element ∅)
     = new_world "box" true false plain_element ∅
  /\ start (page Static (box 0 0) 800 600)
       (new_world "box" true true plain_element ∅)
     = Ok (new_world "box" true true plain_element ∅).
Proof.
  split; [reflexivity|]. split; [reflexivity|].
  exact (C10_stop_start_early_return (page Static (box 0 0) 800 600)
           (new_world "box" true false plain_element ∅)
           (new_world "box" true true plain_element ∅) eq_refl eq_refl).
Defined.

(** C6 at a failing input. An enabled instance is dragged by (50, 30) and
    released, then [stop] is called: the listeners are gone and the store
    entry is the one the release wrote, but the element still renders the
    translation (50, 30) while its recorded offset says (0, 0). *)
Theorem C6_stop_keeps_rendered_translation :
  exists w0 w1,
    constructor (page Fixed (box 0 0) 800 600) plain_element ∅
      (Some "box"%string) HTMLElement HTMLElement true true = Ok w0
    /\ run [(page Fixed (box 0 0) 800 600, mousedown (press 10 10));
            (page Fixed (box 0 0) 800 600, mousemove (press 60 40));
            (page Fixed (box 50 30) 800 600, mouseup (press 60 40))] w0
       = Some w1
    /\ enabled (this w1) = true
    /\ style_translate (el w1) = translate_px 50 30
    /\ style_translate (el (stop w1)) = translate_px 50 30
    /\ rendered (style_translate (el (stop w1))) <> {| x := 0; y := 0 |}
    /\ dataset_translate (el (stop w1)) = Some zero_annotation
    /\ registered (stop w1) = no_listeners
    /\ localStorage (stop w1) = localStorage w1
    /\ localStorage w1 !! "box"%string
       = Some (JSON.stringify 50 30).
Proof.
  eexists. eexists.
  split; [vm_compute; reflexivity|].
  split; [vm_compute; reflexivity|].
  repeat split; try reflexivity. discriminate.
Qed.

(** A stopped instance ignores every event: all its listeners are gone. *)
Lemma stopped_ignores_events h w e :
  enabled (this w) = true ->
  (forall ev, step h (mousedown ev) (stop w) = Ok (stop w))
  /\ step h (storage e) (stop w) = Ok (stop w).
Proof.
  intros He. destruct (stop_effects w) as (_ & _ & Hs).
  destruct (Hs He) as (Hr & _ & _).
  split; [intros ev|]; unfold step; rewrite Hr; reflexivity.
Qed.

(** C5 at a failing input. An instance constructed with [enabled = false]
    has its [storage] listener registered; a notification for its key is
    processed and changes the recorded offset and the rendered translation
    of the element. *)
Theorem C5_disabled_instance_processes_notification :
  exists w0 w1,
    constructor (page Fixed (box 0 0) 800 600) plain_element ∅
      (Some "box"%string) HTMLElement HTMLElement true false = Ok w0
    /\ enabled (this w0) = false
    /\ el w0 = plain_element
    /\ step (page Fixed (box 0 0) 800 600)
         (storage {| key := Some "box"%string;
                     newValue := Some (JSON.stringify 10 20) |})
         w0 = Ok w1
    /\ enabled (this w1) = false
    /\ dataset_translate (el w1) = Some (annotation 10 20)
    /\ style_translate (el w1) = translate_px 10 20
    /\ el w1 <> el w0.
Proof.
  eexists. eexists.
  split; [vm_compute; reflexivity|].
  split; [reflexivity|]. split; [reflexivity|].
  split; [vm_compute; reflexivity|].
  repeat split; try reflexivity. discriminate.
Qed.

(** A construction with [enabled = false] skips the setup but registers the
    [storage] listener. *)
Lemma constructor_disabled h target ls i s w0 :
  constructor h target ls (Some i) HTMLElement HTMLElement s false = Ok w0 ->
  this w0 = fresh_instance i s false
  /\ el w0 = target
  /\ localStorage w0 = ls
  /\ storage_listener (registered w0) = true
  /\ mousedown_listener (registered w0) = false.
Proof.
  unfold constructor. destruct (String.eqb i EmptyString); [discriminate|].
  cbn. intros H; injection H as <-. cbn. auto.
Qed.

(** Such an instance processes every notification for its key that carries
    an offset: the element records and renders it, corrected only at the
    origin because the thresholds are still [undefined]. *)
Lemma never_enabled_instance_syncs h h' target ls i s w0 tx ty :
  constructor h target ls (Some i) HTMLElement HTMLElement s false = Ok w0 ->
  draggable_is_false target = false ->
  exists w1,
    step h' (storage {| key := Some i;
                        newValue := Some (JSON.stringify tx ty) |}) w0
    = Ok w1
    /\ dataset_translate (el w1) =
         Some (annotation
                 (tx + correction None (rect_left (boundingClientRect h')))
                 (ty + correction None (rect_top (boundingClientRect h'))))
    /\ style_translate (el w1) =
         translate_px
           (tx + correction None (rect_left (boundingClientRect h')))
           (ty + correction None (rect_top (boundingClientRect h'))).
Proof.
  intros H0 Hd.
  destruct (constructor_disabled _ _ _ _ _ _ H0) as (Ht & Hel & _ & Hl & _).
  unfold step. rewrite Hl. unfold _onStorage. rewrite Hel, Hd.
  cbn [key newValue]. rewrite Ht. cbn [id fresh_instance].
  rewrite String.eqb_refl. unfold _updatePos.
  replace (String.eqb (JSON.stringify tx ty) EmptyString) with false
    by reflexivity.
  rewrite parse_stringify.
  destruct (_getPos_measured_box h' tx ty w0) as (w' & E & Hel' & _).
  rewrite E. rewrite Ht. cbn. eexists. split; [reflexivity|].
  split; reflexivity.
Qed.

(** ** The store of an instance that does not persist *)

Lemma _setProperties_after h w w' :
  after (_setProperties h w) = Some w' ->
  id (this w') = id (this w)
  /\ store (this w') = store (this w)
  /\ localStorage w' =
       (if store (this w) then localStorage w
        else delete (id (this w)) (localStorage w)).
Proof.
  unfold _setProperties.
  destruct (enabled (this w) && _); cbn; intros H; injection H as <-;
    cbn; auto.
Qed.

Lemma _updatePos_after h payload w w' :
  after (_updatePos h payload w) = Some w' ->
  id (this w') = id (this w)
  /\ store (this w') = store (this w)
  /\ localStorage w' = localStorage w.
Proof.
  unfold _updatePos. destruct payload as [s|].
  - destruct (String.eqb s EmptyString).
    + returned.
    + unfold _getPos.
      destruct (if JSON.truthy _ then number_members _ else _); cbn;
        [|discriminate].
      returned.
  - returned.
Qed.

Lemma _mousedown_after h e w w' :
  after (_mousedown h e w) = Some w' ->
  id (this w') = id (this w)
  /\ store (this w') = store (this w)
  /\ localStorage w' = localStorage w.
Proof.
  unfold _mousedown.
  destruct (draggable_is_false (el w)); [returned|].
  destruct (negb (target_is_dragElement e)); [returned|].
  destruct (negb (button e =? 0)); [returned|].
  cbv zeta.
  destruct (number_members (recorded_translate (el w)));
    destruct (recorded_translate (el w)); cbn; try discriminate;
    returned.
Qed.

Lemma _onStorage_after h e w w' :
  after (_onStorage h e w) = Some w' ->
  id (this w') = id (this w)
  /\ store (this w') = store (this w)
  /\ localStorage w' = localStorage w.
Proof.
  unfold _onStorage.
  destruct (draggable_is_false (el w)); [returned|].
  destruct (key e) as [k|]; [|returned].
  destruct (String.eqb k (id (this w))); [|returned].
  apply _updatePos_after.
Qed.

Lemma start_after h w w' :
  after (start h w) = Some w' ->
  id (this w') = id (this w)
  /\ store (this w') = store (this w)
  /\ (localStorage w' = localStorage w
      \/ localStorage w' =
           (if store (this w) then localStorage w
            else delete (id (this w)) (localStorage w))).
Proof.
  unfold start. destruct (enabled (this w)).
  - returned.
  - destruct (_setProperties h w) as [w1|ex w1|] eqn:E1; cbn;
      [| |discriminate].
    + assert (after (_setProperties h w) = Some w1) as Ha
        by (rewrite E1; reflexivity).
      apply _setProperties_after in Ha as (Hi & Hs & Hl).
      unfold _restorePos.
      destruct (_updatePos h _ w1) as [w2|ex w2|] eqn:E2; cbn;
        [| |discriminate].
      * assert (after (_updatePos h (localStorage w1 !! id (this w1)) w1)
                = Some w2) as Hb by (rewrite E2; reflexivity).
        apply _updatePos_after in Hb as (Hi2 & Hs2 & Hl2).
        intros H; injection H as <-. cbn.
        rewrite Hi2, Hs2, Hl2, Hi, Hs, Hl. auto.
      * exfalso. exact (_updatePos_never_throws _ _ _ _ _ E2).
    + assert (after (_setProperties h w) = Some w1) as Ha
        by (rewrite E1; reflexivity).
      apply _setProperties_after in Ha as (Hi & Hs & Hl).
      intros H; injection H as <-. auto.
Qed.

(** One action of an instance with [store = false] writes nothing. *)
Lemma step_nothing_written h a w w' :
  store (this w) = false ->
  after (step h a w) = Some w' ->
  id (this w') = id (this w)
  /\ store (this w') = false
  /\ nothing_written w w'.
Proof.
  intros Hs. unfold nothing_written. destruct a as [| | |e|e|e|e]; cbn [step].
  - intros H. apply start_after in H as (Hi & Hst & Hl).
    rewrite Hs in Hl, Hst. tauto.
  - unfold stop. destruct (negb (enabled (this w))); returned.
  - returned.
  - destruct (mousedown_listener (registered w)).
    + intros H. apply _mousedown_after in H as (Hi & Hst & Hl).
      rewrite Hs in Hst. auto.
    + returned.
  - destruct (mousemove_listener (registered w)); returned.
  - destruct (mouseup_listener (registered w)); [|returned].
    unfold _stopDrag. cbv zeta.
    replace (store (this (removeEventListener boundDrag
                            (removeEventListener boundStopDrag w))))
      with false by (symmetry; exact Hs).
    returned.
  - destruct (storage_listener (registered w)).
    + intros H. apply _onStorage_after in H as (Hi & Hst & Hl).
      rewrite Hs in Hst. auto.
    + returned.
Qed.

Lemma run_nothing_written tr : forall w w',
  store (this w) = false ->
  run tr w = Some w' ->
  id (this w') = id (this w)
  /\ store (this w') = false
  /\ nothing_written w w'.
Proof.
  induction tr as [|[h a] tr IH]; intros w w' Hs.
  - cbn. intros H; injection H as <-. unfold nothing_written. auto.
  - cbn [run]. destruct (after (step h a w)) as [w1|] eqn:E; cbn;
      [|discriminate].
    intros H.
    destruct (step_nothing_written h a w w1 Hs E) as (Hi1 & Hs1 & Hn1).
    destruct (IH w1 w' Hs1 H) as (Hi & Hs' & Hn).
    split; [congruence|]. split; [exact Hs'|].
    unfold nothing_written in *. rewrite Hi1 in Hn.
    destruct Hn as [-> | ->]; destruct Hn1 as [-> | ->]; auto.
    right. apply delete_delete_eq.
Qed.

(** A successful construction with [store = false]: the instance holds the
    flag and the identifier, nothing was written, and when the instance is
    enabled the setup removed the entry of the identifier. *)
Lemma constructor_store_false h target ls idArg d1 d2 b w0 :
  constructor h target ls idArg d1 d2 false b = Ok w0 ->
  idArg = Some (id (this w0))
  /\ store (this w0) = false
  /\ (localStorage w0 = ls \/ localStorage w0 = delete (id (this w0)) ls)
  /\ (b = true -> localStorage w0 !! id (this w0) = None).
Proof.
  unfold constructor.
  destruct d1, d2; try discriminate.
  destruct idArg as [i|]; [|discriminate].
  destruct (String.eqb i EmptyString); [discriminate|].
  destruct b.
  - destruct (_setProperties h _) as [w1|ex w1|] eqn:E1; cbn;
      try discriminate.
    assert (after (_setProperties h
              (set_this (fresh_instance i false true)
                 {| this := fresh_instance EmptyString false false;
                    el := target; localStorage := ls;
                    registered := no_listeners |})) = Some w1) as Ha
      by (rewrite E1; reflexivity).
    apply _setProperties_after in Ha as (Hi & Hs & Hl). cbn in Hi, Hs, Hl.
    unfold _restorePos.
    destruct (_updatePos h _ w1) as [w2|ex w2|] eqn:E2; cbn; try discriminate.
    assert (after (_updatePos h (localStorage w1 !! id (this w1)) w1)
            = Some w2) as Hb by (rewrite E2; reflexivity).
    apply _updatePos_after in Hb as (Hi2 & Hs2 & Hl2).
    intros H; injection H as <-. cbn.
    rewrite Hi2, Hs2, Hl2, Hi, Hs, Hl.
    split; [reflexivity|]. split; [reflexivity|]. split; [right; reflexivity|].
    intros _. apply lookup_delete_eq.
  - cbn. intros H; injection H as <-. cbn.
    split; [reflexivity|]. split; [reflexivity|]. split; [left; reflexivity|].
    discriminate.
Qed.

(** C7. An instance with [store = false] never writes to the store: after
    any run of method calls and events the store is the one before,
    possibly without the entry of the instance, so every entry it holds was
    there before; and the setup, [_setProperties], which an enabled
    construction and every effective [start] run, removes the entry of the
    identifier. *)
Theorem C7_store_false_never_writes h tr w w' :
  store (this w) = false ->
  run tr w = Some w' ->
  nothing_written w w'
  /\ (forall k v,
        localStorage w' !! k = Some v -> localStorage w !! k = Some v)
  /\ (forall w1,
        after (_setProperties h w) = Some w1 ->
        localStorage w1 !! id (this w) = None)
  /\ (forall w1,
        enabled (this w) = false ->
        start h w = Ok w1 ->
        localStorage w1 !! id (this w) = None)
  /\ (forall target ls i d1 d2 w0,
        constructor h target ls (Some i) d1 d2 false true = Ok w0 ->
        store (this w0) = false
        /\ localStorage w0 = delete i ls
        /\ localStorage w0 !! i = None).
Proof.
  intros Hs Hrun.
  destruct (run_nothing_written tr w w' Hs Hrun) as (_ & _ & Hn).
  split; [exact Hn|]. split; [|split; [|split]].
  - intros k v Hk. destruct Hn as [E|E]; rewrite E in Hk; [exact Hk|].
    apply lookup_delete_Some in Hk as [_ Hk]. exact Hk.
  - intros w1 H1. apply _setProperties_after in H1 as (_ & _ & Hl).
    rewrite Hl, Hs. apply lookup_delete_eq.
  - intros w1 He H1. unfold start in H1. rewrite He in H1.
    destruct (_setProperties h w) as [w2|ex w2|] eqn:E1; cbn in H1;
      try discriminate.
    assert (after (_setProperties h w) = Some w2) as Ha
      by (rewrite E1; reflexivity).
    apply _setProperties_after in Ha as (Hi & _ & Hl).
    unfold _restorePos in H1.
    destruct (_updatePos h _ w2) as [w3|ex w3|] eqn:E2; cbn in H1;
      try discriminate.
    assert (after (_updatePos h (localStorage w2 !! id (this w2)) w2)
            = Some w3) as Hb by (rewrite E2; reflexivity).
    apply _updatePos_after in Hb as (_ & _ & Hl3).
    injection H1 as <-. cbn. rewrite Hl3, Hl, Hs. apply lookup_delete_eq.
  - intros target ls i d1 d2 w0 H0.
    destruct (constructor_store_false _ _ _ _ _ _ _ _ H0)
      as (Hi & Hst & _ & Hl).
    injection Hi as Hi. split; [exact Hst|].
    specialize (Hl eq_refl). split; [|rewrite Hi; exact Hl].
    clear Hl. revert H0. unfold constructor.
    destruct d1, d2; try discriminate.
    destruct (String.eqb i EmptyString); [discriminate|].
    destruct (_setProperties h _) as [w1|ex w1|] eqn:E1; cbn;
      try discriminate.
    assert (after (_setProperties h
              (set_this (fresh_instance i false true)
                 {| this := fresh_instance EmptyString false false;
                    el := target; localStorage := ls;
                    registered := no_listeners |})) = Some w1) as Ha
      by (rewrite E1; reflexivity).
    apply _setProperties_after in Ha as (_ & _ & Hl1). cbn in Hl1.
    unfold _restorePos.
    destruct (_updatePos h _ w1) as [w2|ex w2|] eqn:E2; cbn; try discriminate.
    assert (after (_updatePos h (localStorage w1 !! id (this w1)) w1)
            = Some w2) as Hb by (rewrite E2; reflexivity).
    apply _updatePos_after in Hb as (_ & _ & Hl2).
    intros H; injection H as <-. cbn. rewrite Hl2, Hl1. reflexivity.
Qed.

Lemma C7_witness :
  exists w',
    store (this (new_world "box" false false plain_element
                   {[ "box"%string := "stale"%string ]})) = false
    /\ run [(page Fixed (box 0 0) 800 600, call_start);
            (page Fixed (box 0 0) 800 600, mousedown (press 10 10));
            (page Fixed (box 0 0) 800 600, mousemove (press 60 40));
            (page Fixed (box 0 0) 800 600, mouseup (press 60 40));
            (page Fixed (box 0 0) 800 600, call_stop)]
         (new_world "box" false false plain_element
            {[ "box"%string := "stale"%string ]})
       = Some w'
    /\ nothing_written
         (new_world "box" false false plain_element
            {[ "box"%string := "stale"%string ]}) w'
    /\ localStorage w' = ∅.
Proof.
  eexists. split; [reflexivity|].
  split; [vm_compute; reflexivity|].
  split; [|reflexivity].
  apply (C7_store_false_never_writes (page Fixed (box 0 0) 800 600)
           [(page Fixed (box 0 0) 800 600, call_start);
            (page Fixed (box 0 0) 800 600, mousedown (press 10 10));
            (page Fixed (box 0 0) 800 600, mousemove (press 60 40));
            (page Fixed (box 0 0) 800 600, mouseup (press 60 40));
            (page Fixed (box 0 0) 800 600, call_stop)]
           (new_world "box" false false plain_element
              {[ "box"%string := "stale"%string ]})).
  - reflexivity.
  - vm_compute; reflexivity.
Defined.

(** * Further properties of the class *)

(** ** The clamp as a function *)

Lemma correction_zero_iff (max c : Z) :
  correction (Some max) c = 0 <-> within max c.
Proof.
  unfold correction, within.
  destruct (Z.ltb_spec (max - c) 0); destruct (Z.ltb_spec c 0); lia.
Qed.

(** X1. [_getThresholds] returns no correction exactly for the corners
    inside [0, thresholdX] x [0, thresholdY]; with a negative threshold no
    corner is left uncorrected. *)
Theorem getThresholds_zero_iff_in_range t maxX maxY top left :
  thresholdX t = Some maxX ->
  thresholdY t = Some maxY ->
  (_getThresholds t top left = {| x := 0; y := 0 |}
   <-> within maxX left /\ within maxY top)
  /\ (maxX < 0 -> x (_getThresholds t top left) <> 0)
  /\ (maxY < 0 -> y (_getThresholds t top left) <> 0).
Proof.
  intros Hx Hy. unfold _getThresholds. rewrite Hx, Hy.
  pose proof (correction_zero_iff maxX left) as Ex.
  pose proof (correction_zero_iff maxY top) as Ey.
  cbn [x y]. unfold within in *. split; [split|split].
  - intros H; injection H as H1 H2. tauto.
  - intros [H1 H2]. apply Ex in H1. apply Ey in H2. congruence.
  - intros Hneg Hc. apply Ex in Hc. lia.
  - intros Hneg Hc. apply Ey in Hc. lia.
Qed.

Lemma getThresholds_zero_iff_in_range_witness :
  exists w',
    _setProperties (page Fixed (box 0 0) 800 600)
      (new_world "box" false true plain_element ∅) = Ok w'
    /\ thresholdX (this w') = Some 700
    /\ thresholdY (this w') = Some 550
    /\ (_getThresholds (this w') 550 0 = {| x := 0; y := 0 |}
        <-> within 700 0 /\ within 550 550).
Proof.
  eexists. split; [vm_compute; reflexivity|].
  split; [reflexivity|]. split; [reflexivity|].
  apply (getThresholds_zero_iff_in_range _ 700 550 550 0); reflexivity.
Defined.

(** X2. On integer pixel values and with thresholds that are not negative,
    the corner after the correction is the proposed corner clamped into the
    range: the nearest point of [0, thresholdX] x [0, thresholdY]. *)
Theorem getThresholds_clamps_to_nearest t maxX maxY top left :
  thresholdX t = Some maxX ->
  thresholdY t = Some maxY ->
  0 <= maxX -> 0 <= maxY ->
  Forall pixel [left; top; maxX; maxY] ->
  left + x (_getThresholds t top left) = Z.max 0 (Z.min left maxX)
  /\ top + y (_getThresholds t top left) = Z.max 0 (Z.min top maxY).
Proof.
  intros Hx Hy HmaxX HmaxY _. unfold _getThresholds. rewrite Hx, Hy.
  cbn [x y]. unfold correction.
  destruct (Z.ltb_spec (maxX - left) 0); destruct (Z.ltb_spec left 0);
    destruct (Z.ltb_spec (maxY - top) 0); destruct (Z.ltb_spec top 0); lia.
Qed.

Lemma getThresholds_clamps_to_nearest_witness :
  exists w',
    _setProperties (page Fixed (box 0 0) 800 600)
      (new_world "box" false true plain_element ∅) = Ok w'
    /\ thresholdX (this w') = Some 700
    /\ thresholdY (this w') = Some 550
    /\ 0 <= 700 /\ 0 <= 550
    /\ Forall pixel [750; -30; 700; 550]
    /\ 750 + x (_getThresholds (this w') (-30) 750) = Z.max 0 (Z.min 750 700)
    /\ -30 + y (_getThresholds (this w') (-30) 750) = Z.max 0 (Z.min (-30) 550).
Proof.
  eexists. split; [vm_compute; reflexivity|].
  split; [reflexivity|]. split; [reflexivity|].
  split; [lia|]. split; [lia|].
  split; [repeat constructor; vm_compute; discriminate|].
  apply (getThresholds_clamps_to_nearest _ 700 550 (-30) 750);
    [reflexivity | reflexivity | lia | lia
    | repeat constructor; vm_compute; discriminate].
Defined.

(** ** The document size *)

Lemma Math_max_upper (rest : list Z) : forall a v,
  v = a \/ In v rest -> v <= Math_max a rest.
Proof.
  unfold Math_max.
  induction rest as [|b rest IH]; intros a v [->|Hin]; cbn [fold_left].
  - lia.
  - destruct Hin.
  - etransitivity; [|apply (IH (Z.max a b) (Z.max a b)); left; reflexivity].
    lia.
  - destruct Hin as [->|Hin].
    + etransitivity; [|apply (IH (Z.max a v) (Z.max a v)); left; reflexivity].
      lia.
    + apply IH. right. exact Hin.
Qed.

Lemma Math_max_attained (rest : list Z) : forall a,
  Math_max a rest = a \/ In (Math_max a rest) rest.
Proof.
  unfold Math_max.
  induction rest as [|b rest IH]; intros a; cbn [fold_left].
  - left. reflexivity.
  - destruct (IH (Z.max a b)) as [E|Hin].
    + rewrite E. destruct (Z.max_spec a b) as [[_ ->]|[_ ->]];
        [right; left; reflexivity | left; reflexivity].
    + right. right. exact Hin.
Qed.

(** X3. [getDocDimensions] returns, on each axis, the largest of the six
    scroll, offset and client metrics of the body and the root, less the
    scroll offset: it is one of the six and none of them exceeds it. *)
Theorem getDocDimensions_is_largest_metric h :
  (forall v, In v (width_metrics h) ->
             v - scrollX h <= x (getDocDimensions h))
  /\ In (x (getDocDimensions h) + scrollX h) (width_metrics h)
  /\ (forall v, In v (height_metrics h) ->
                v - scrollY h <= y (getDocDimensions h))
  /\ In (y (getDocDimensions h) + scrollY h) (height_metrics h).
Proof.
  unfold getDocDimensions, width_metrics, height_metrics. cbn [x y].
  split; [|split; [|split]].
  - intros v Hin.
    assert (v <= Math_max (body_scrollWidth h)
                   [root_scrollWidth h; body_offsetWidth h;
                    root_offsetWidth h; body_clientWidth h;
                    root_clientWidth h])
      by (apply Math_max_upper; destruct Hin as [E|Hin];
          [left; symmetry; exact E | right; exact Hin]).
    lia.
  - match goal with |- In (?m - _ + _) _ => replace (m - scrollX h + scrollX h)
      with m by lia end.
    destruct (Math_max_attained
                [root_scrollWidth h; body_offsetWidth h; root_offsetWidth h;
                 body_clientWidth h; root_clientWidth h] (body_scrollWidth h))
      as [E|Hin]; [rewrite E; left; reflexivity | right; exact Hin].
  - intros v Hin.
    assert (v <= Math_max (body_scrollHeight h)
                   [root_scrollHeight h; body_offsetHeight h;
                    root_offsetHeight h; body_clientHeight h;
                    root_clientHeight h])
      by (apply Math_max_upper; destruct Hin as [E|Hin];
          [left; symmetry; exact E | right; exact Hin]).
    lia.
  - match goal with |- In (?m - _ + _) _ => replace (m - scrollY h + scrollY h)
      with m by lia end.
    destruct (Math_max_attained
                [root_scrollHeight h; body_offsetHeight h; root_offsetHeight h;
                 body_clientHeight h; root_clientHeight h] (body_scrollHeight h))
      as [E|Hin]; [rewrite E; left; reflexivity | right; exact Hin].
Qed.

(** ** Construction and enabling *)



(** X5. When the constructor throws the position error, [_setProperties]
    has already handled the store: with [store = false] the entry of the id
    is removed although no instance comes into being, and nothing else of
    the page changed. *)
Theorem constructor_position_error_effects h target ls i s :
  String.eqb i EmptyString = false ->
  out_of_flow (computed_position h) = false ->
  exists w',
    constructor h target ls (Some i) HTMLElement HTMLElement s true
    = Throw (position_error (computed_position h)) w'
    /\ localStorage w' = (if s then ls else delete i ls)
    /\ el w' = target
    /\ registered w' = no_listeners.
Proof.
  intros Hi Hp. unfold constructor. rewrite Hi.
  unfold _setProperties. cbn. unfold out_of_flow in Hp. rewrite Hp. cbn.
  eexists. split; [reflexivity|]. cbn. repeat split.
Qed.

Lemma constructor_position_error_effects_witness :
  String.eqb "box" EmptyString = false
  /\ out_of_flow (computed_position (page Static (box 0 0) 800 600)) = false
  /\ exists w',
       constructor (page Static (box 0 0) 800 600) plain_element
         {[ "box"%string := "stale"%string ]} (Some "box"%string)
         HTMLElement HTMLElement false true
       = Throw (position_error Static) w'
       /\ localStorage w' = delete "box"%string {[ "box"%string := "stale"%string ]}
       /\ el w' = plain_element
       /\ registered w' = no_listeners.
Proof.
  split; [reflexivity|]. split; [reflexivity|].
  exact (constructor_position_error_effects (page Static (box 0 0) 800 600)
           plain_element {[ "box"%string := "stale"%string ]} "box" false
           eq_refl eq_refl).
Defined.

(** [_setProperties] on a disabled instance accepts every position. *)
Lemma _setProperties_disabled h w :
  enabled (this w) = false -> exists w1, _setProperties h w = Ok w1.
Proof.
  intros He. unfold _setProperties. rewrite He. cbn. eexists. reflexivity.
Qed.





(** ** The press *)

Lemma accepted_guards e w :
  accepted e w = true ->
  draggable_is_false (el w) = false
  /\ target_is_dragElement e = true
  /\ (button e =? 0) = true.
Proof.
  unfold accepted. intros H.
  apply andb_true_iff in H as [H Hb]. apply andb_true_iff in H as [Hd Ht].
  apply negb_true_iff in Hd. auto.
Qed.

(** An accepted press with a recorded offset of two numbers. *)
Lemma _mousedown_pressed h e w tr :
  accepted e w = true ->
  number_members (recorded_translate (el w)) = Some tr ->
  _mousedown h e w = Ok (pressed h e tr w).
Proof.
  intros Hacc Hm. destruct (accepted_guards e w Hacc) as (Hd & Ht & Hb).
  unfold _mousedown. rewrite Hd, Ht, Hb. cbn [negb]. cbv zeta.
  rewrite Hm.
  destruct (recorded_translate (el w)); try reflexivity.
  discriminate Hm.
Qed.

(** A press the guards reject changes nothing. *)
Lemma _mousedown_rejected h e w :
  accepted e w = false -> _mousedown h e w = Ok w.
Proof.
  unfold accepted, _mousedown. intros H.
  destruct (draggable_is_false (el w)); [reflexivity|].
  destruct (target_is_dragElement e); [|reflexivity].
  destruct (button e =? 0); [discriminate|reflexivity].
Qed.





(** ** The moves *)




(** ** The release *)

(** X11. A release after a move externalises what is rendered: the recorded
    offset is the template of the rendered translation and parses back to
    it; with [store = true] the entry of the id holds the same offset and
    no other entry changes, with [store = false] the store is as before;
    the move handler is removed. *)
Theorem release_externalises_rendered e e' w :
  let w1 := _drag e w in
  let w2 := _stopDrag e' w1 in
  let tx := translateX (this w1) in
  let ty := translateY (this w1) in
  style_translate (el w2) = translate_px tx ty
  /\ dataset_translate (el w2) = Some (annotation tx ty)
  /\ recorded_translate (el w2) = xy_object tx ty
  /\ mousemove_listener (registered w2) = false
  /\ (store (this w) = true ->
      localStorage w2 !! id (this w) = Some (JSON.stringify tx ty)
      /\ (JSON.parse (JSON.stringify tx ty) = Some (xy_object tx ty))
      /\ forall k, k <> id (this w) ->
                   localStorage w2 !! k = localStorage w !! k)
  /\ (store (this w) = false -> localStorage w2 = localStorage w).
Proof.
  cbv zeta.
  split; [|split; [|split; [|split; [|split]]]].
  - destruct (_stopDrag_frame e' (_drag e w)) as (_ & _ & Hs).
    rewrite Hs. reflexivity.
  - unfold _stopDrag. cbv zeta. cbn [this removeEventListener set_registered].
    destruct (store (this (_drag e w))); reflexivity.
  - apply recorded_translate_stopDrag.
  - unfold _stopDrag. cbv zeta. cbn [this removeEventListener set_registered].
    destruct (store (this (_drag e w))); reflexivity.
  - intros Hs. unfold _stopDrag. cbv zeta.
    cbn [this removeEventListener set_registered].
    replace (store (this (_drag e w))) with true by (symmetry; exact Hs).
    cbn -[JSON.stringify JSON.parse].
    split; [apply lookup_insert_eq|].
    split; [apply parse_stringify|].
    intros k Hk. apply lookup_insert_ne. congruence.
  - intros Hs. unfold _stopDrag. cbv zeta.
    cbn [this removeEventListener set_registered].
    replace (store (this (_drag e w))) with false by (symmetry; exact Hs).
    reflexivity.
Qed.

Lemma release_externalises_rendered_witness :
  store (this (new_world "box" true true plain_element ∅)) = true
  /\ localStorage
       (_stopDrag (press 0 0)
          (_drag (press 30 (-4))
             (new_world "box" true true plain_element ∅)))
     !! "box"%string
     = Some (JSON.stringify 30 0).
Proof.
  split; [reflexivity|].
  destruct (release_externalises_rendered (press 30 (-4)) (press 0 0)
              (new_world "box" true true plain_element ∅))
    as (_ & _ & _ & _ & H & _).
  exact (proj1 (H eq_refl)).
Defined.

(** X12. A session without movement changes no offset: an accepted press
    followed by the release records again the offset that was recorded,
    leaves the rendered translation alone, removes both session handlers
    and, when the instance persists, stores the offset, otherwise leaves
    the store alone. *)
Theorem press_release_keeps_offset h h' e e' w tx ty :
  mousedown_listener (registered w) = true ->
  accepted e w = true ->
  dataset_translate (el w) = Some (annotation tx ty) ->
  exists w',
    run [(h, mousedown e); (h', mouseup e')] w = Some w'
    /\ dataset_translate (el w') = Some (annotation tx ty)
    /\ style_translate (el w') = style_translate (el w)
    /\ mousemove_listener (registered w') = false
    /\ mouseup_listener (registered w') = false
    /\ mousedown_listener (registered w') = true
    /\ (store (this w) = true ->
        localStorage w' = <[id (this w) := JSON.stringify tx ty]> (localStorage w))
    /\ (store (this w) = false -> localStorage w' = localStorage w).
Proof.
  intros Hl Hacc Hd.
  assert (number_members (recorded_translate (el w))
          = Some {| x := tx; y := ty |}) as Hm
    by (rewrite (recorded_translate_annotation _ _ _ Hd); reflexivity).
  cbn [run step]. rewrite Hl.
  rewrite (_mousedown_pressed h e w _ Hacc Hm).
  cbn [after mbind option_bind].
  replace (mouseup_listener (registered (pressed h e {| x := tx; y := ty |} w)))
    with true by reflexivity.
  cbn [after mbind option_bind]. eexists. split; [reflexivity|].
  unfold _stopDrag. cbv zeta.
  replace (store (this (removeEventListener boundDrag
             (removeEventListener boundStopDrag
                (pressed h e {| x := tx; y := ty |} w)))))
    with (store (this w)) by reflexivity.
  destruct (store (this w)); cbn -[annotation JSON.stringify];
    rewrite Hl; repeat split; discriminate.
Qed.

Lemma press_release_keeps_offset_witness :
  exists w,
    constructor (page Fixed (box 0 0) 800 600) plain_element
      {[ "box"%string := JSON.stringify 20 30 ]}
      (Some "box"%string) HTMLElement HTMLElement true true = Ok w
    /\ mousedown_listener (registered w) = true
    /\ accepted (press 1 1) w = true
    /\ dataset_translate (el w) = Some (annotation 20 30)
    /\ exists w',
         run [(page Fixed (box 20 30) 800 600, mousedown (press 1 1));
              (page Fixed (box 20 30) 800 600, mouseup (press 1 1))] w
         = Some w'
         /\ dataset_translate (el w') = Some (annotation 20 30).
Proof.
  eexists.
  split; [vm_compute; reflexivity|].
  match goal with
  | |- mousedown_listener (registered ?w0) = true /\ _ => pose (wc := w0)
  end.
  split; [reflexivity|]. split; [reflexivity|]. split; [reflexivity|].
  destruct (press_release_keeps_offset (page Fixed (box 20 30) 800 600)
              (page Fixed (box 20 30) 800 600) (press 1 1) (press 1 1)
              wc 20 30 eq_refl eq_refl eq_refl) as (w' & Hrun & Hd & _).
  exists w'. split; [exact Hrun | exact Hd].
Defined.

(** ** Runs of events *)

(** With no handler registered an event finds nobody. *)
Lemma step_no_listeners h a w :
  registered w = no_listeners -> is_event a = true -> step h a w = Ok w.
Proof.
  intros Hr Ha. destruct a; try discriminate; cbn [step]; rewrite Hr;
    reflexivity.
Qed.

Lemma run_fixed (P : action -> Prop) w tr :
  (forall h a, P a -> step h a w = Ok w) ->
  Forall (fun ha => P (snd ha)) tr ->
  run tr w = Some w.
Proof.
  intros Hstep. induction tr as [|[h a] tr IH]; intros HF; [reflexivity|].
  inversion HF as [|? ? Ha HF']; subst. cbn [run].
  rewrite (Hstep h a Ha). cbn. apply IH. exact HF'.
Qed.

(** X13. After [stop] on an enabled instance no event reaches it any more:
    every run of mouse and storage events leaves the state exactly as
    [stop] left it, so a drag in progress is cut off without its offset
    being recorded or stored. *)
Theorem stop_ends_all_event_handling w tr :
  enabled (this w) = true ->
  Forall (fun ha => is_event (snd ha) = true) tr ->
  run tr (stop w) = Some (stop w).
Proof.
  intros He HF. destruct (stop_effects w) as (_ & _ & Hs).
  destruct (Hs He) as (Hr & _ & _).
  apply (run_fixed (fun a => is_event a = true)); [|exact HF].
  intros h a Ha. apply step_no_listeners; assumption.
Qed.

Lemma stop_ends_all_event_handling_witness :
  exists w0 w1,
    constructor (page Fixed (box 0 0) 800 600) plain_element ∅
      (Some "box"%string) HTMLElement HTMLElement true true = Ok w0
    /\ run [(page Fixed (box 0 0) 800 600, mousedown (press 10 10));
            (page Fixed (box 0 0) 800 600, mousemove (press 60 40))] w0
       = Some w1
    /\ enabled (this w1) = true
    /\ run [(page Fixed (box 50 30) 800 600, mousemove (press 90 90));
            (page Fixed (box 50 30) 800 600, mouseup (press 90 90));
            (page Fixed (box 50 30) 800 600,
             storage {| key := Some "box"%string;
                        newValue := Some (JSON.stringify 1 2) |});
            (page Fixed (box 50 30) 800 600, mousedown (press 10 10))]
         (stop w1)
       = Some (stop w1).
Proof.
  eexists. eexists.
  split; [vm_compute; reflexivity|]. split; [vm_compute; reflexivity|].
  split; [reflexivity|].
  apply stop_ends_all_event_handling; [reflexivity|].
  repeat constructor.
Defined.

(** X14. [removeListeners] is permanent for an enabled instance: afterwards
    events find no handler, and [start] returns at once because the flag is
    still true, so every run without [stop] leaves the state as
    [removeListeners] left it. *)
Theorem removeListeners_is_permanent w tr :
  enabled (this w) = true ->
  Forall (fun ha => snd ha <> call_stop) tr ->
  run tr (removeListeners w) = Some (removeListeners w).
Proof.
  intros He HF.
  apply (run_fixed (fun a => a <> call_stop)); [|exact HF].
  intros h a Ha. destruct a; try (apply step_no_listeners; reflexivity).
  - cbn [step]. unfold start.
    replace (enabled (this (removeListeners w))) with true
      by (symmetry; exact He). reflexivity.
  - contradiction.
  - reflexivity.
Qed.

Lemma removeListeners_is_permanent_witness :
  exists w0,
    constructor (page Fixed (box 0 0) 800 600) plain_element ∅
      (Some "box"%string) HTMLElement HTMLElement true true = Ok w0
    /\ enabled (this w0) = true
    /\ run [(page Fixed (box 0 0) 800 600, call_start);
            (page Fixed (box 0 0) 800 600, mousedown (press 10 10));
            (page Fixed (box 0 0) 800 600, mousemove (press 60 40));
            (page Fixed (box 0 0) 800 600,
             storage {| key := Some "box"%string;
                        newValue := Some (JSON.stringify 1 2) |})]
         (removeListeners w0)
       = Some (removeListeners w0).
Proof.
  eexists. split; [vm_compute; reflexivity|]. split; [reflexivity|].
  apply removeListeners_is_permanent; [reflexivity|].
  repeat constructor; discriminate.
Defined.

(** X15. While [dataset.draggable] is ["false"] and no drag is in progress,
    no event changes anything: every run of mouse and storage events
    leaves the whole state as it is. *)
Theorem draggable_false_blocks_events w tr :
  draggable_is_false (el w) = true ->
  mousemove_listener (registered w) = false ->
  mouseup_listener (registered w) = false ->
  Forall (fun ha => is_event (snd ha) = true) tr ->
  run tr w = Some w.
Proof.
  intros Hd Hm Hu HF.
  apply (run_fixed (fun a => is_event a = true)); [|exact HF].
  intros h a Ha. destruct a; try discriminate; cbn [step].
  - unfold _mousedown. rewrite Hd.
    destruct (mousedown_listener (registered w)); reflexivity.
  - rewrite Hm. reflexivity.
  - rewrite Hu. reflexivity.
  - unfold _onStorage. rewrite Hd.
    destruct (storage_listener (registered w)); reflexivity.
Qed.

Lemma draggable_false_blocks_events_witness :
  exists w0,
    constructor (page Fixed (box 0 0) 800 600)
      {| dataset_translate := None; dataset_draggable := Some "false"%string;
         style_translate := translate_none |} ∅
      (Some "box"%string) HTMLElement HTMLElement true true = Ok w0
    /\ draggable_is_false (el w0) = true
    /\ run [(page Fixed (box 0 0) 800 600, mousedown (press 10 10));
            (page Fixed (box 0 0) 800 600, mousemove (press 60 40));
            (page Fixed (box 0 0) 800 600,
             storage {| key := Some "box"%string;
                        newValue := Some (JSON.stringify 1 2) |});
            (page Fixed (box 0 0) 800 600, mouseup (press 60 40))] w0
       = Some w0.
Proof.
  eexists. split; [vm_compute; reflexivity|]. split; [reflexivity|].
  apply draggable_false_blocks_events;
    [reflexivity | reflexivity | reflexivity |].
  repeat constructor.
Defined.

(** ** An invariant of the registered handlers *)

Lemma _updatePos_keeps h payload w w' :
  after (_updatePos h payload w) = Some w' ->
  position (this w') = position (this w)
  /\ thresholdX (this w') = thresholdX (this w)
  /\ thresholdY (this w') = thresholdY (this w)
  /\ enabled (this w') = enabled (this w)
  /\ registered w' = registered w.
Proof.
  unfold _updatePos. destruct payload as [s|]; [|returned].
  destruct (String.eqb s EmptyString); [returned|].
  unfold _getPos.
  destruct (if JSON.truthy _ then number_members _ else _); cbn;
    [|discriminate].
  returned.
Qed.

Lemma _mousedown_after_cases h e w w' :
  after (_mousedown h e w) = Some w' ->
  (registered w' = registered w
   /\ position (this w') = position (this w)
   /\ thresholdX (this w') = thresholdX (this w)
   /\ thresholdY (this w') = thresholdY (this w))
  \/ exists tr, w' = pressed h e tr w.
Proof.
  destruct (accepted e w) eqn:Hacc.
  - destruct (accepted_guards e w Hacc) as (Hd & Ht & Hb).
    unfold _mousedown. rewrite Hd, Ht, Hb. cbn [negb]. cbv zeta.
    destruct (number_members (recorded_translate (el w))) as [tr|] eqn:Hm;
      destruct (recorded_translate (el w)); cbn; try discriminate;
      intros H; injection H as <-;
      try (right; exists tr; reflexivity); left; cbn; auto.
  - rewrite (_mousedown_rejected h e w Hacc). cbn.
    intros H; injection H as <-. left. auto.
Qed.

Lemma initialised_same t t' :
  position t' = position t ->
  thresholdX t' = thresholdX t ->
  thresholdY t' = thresholdY t ->
  initialised t -> initialised t'.
Proof. unfold initialised. intros -> -> ->. auto. Qed.

(** Each action keeps the handlers consistent. *)
Lemma step_listeners_consistent h a w w' :
  listeners_consistent w ->
  after (step h a w) = Some w' ->
  listeners_consistent w'.
Proof.
  intros (Heq & Hdown & Hmove). unfold listeners_consistent.
  destruct a as [| | |e|e|e|e]; cbn [step].
  - unfold start. destruct (enabled (this w)) eqn:He.
    { cbn. intros H; injection H as <-. auto. }
    destruct (_setProperties h w) as [w1|ex w1|] eqn:E1; cbn;
      [| |discriminate].
    + pose proof E1 as E1'.
      apply _setProperties_Ok_inv in E1 as (Ht & _ & _ & Hr).
      unfold _restorePos.
      destruct (_updatePos h _ w1) as [w2|ex w2|] eqn:E2; cbn;
        [| |discriminate].
      * assert (after (_updatePos h (localStorage w1 !! id (this w1)) w1)
                = Some w2) as Hb by (rewrite E2; reflexivity).
        apply _updatePos_keeps in Hb as (Hp & Hx & Hy & _ & Hr2).
        intros H; injection H as <-. cbn. rewrite Hr2, Hr.
        assert (initialised (this w2)) as Hinit.
        { unfold initialised. rewrite Hp, Hx, Hy, Ht. cbn.
          repeat split; discriminate. }
        split; [exact Heq|]. split; intros _; exact Hinit.
      * exfalso. exact (_updatePos_never_throws _ _ _ _ _ E2).
    + exfalso. destruct (_setProperties_disabled h w He) as [w1' E].
      rewrite E in E1. discriminate.
  - unfold stop. destruct (negb (enabled (this w))); cbn;
      intros H; injection H as <-; cbn; [auto|].
    split; [reflexivity|]. split; discriminate.
  - cbn. intros H; injection H as <-. cbn.
    split; [reflexivity|]. split; discriminate.
  - destruct (mousedown_listener (registered w)) eqn:Hl;
      [|cbn; intros H; injection H as <-; rewrite Hl; auto].
    intros H. apply _mousedown_after_cases in H
      as [(Hr & Hp & Hx & Hy)|(tr & ->)].
    + rewrite Hr. split; [exact Heq|].
      split; intros Hon.
      * apply (initialised_same (this w)); try assumption.
        apply Hdown. reflexivity.
      * apply (initialised_same (this w)); try assumption.
        apply Hmove. exact Hon.
    + cbn. split; [reflexivity|].
      assert (initialised (this (pressed h e tr w))) as Hinit.
      { destruct (Hdown eq_refl) as (Hp & _ & _).
        unfold initialised. cbn. split; [exact Hp|]. split; discriminate. }
      split; intros _; exact Hinit.
  - destruct (mousemove_listener (registered w)) eqn:Hl; cbn;
      intros H; injection H as <-; cbn; [|rewrite Hl in *; auto].
    rewrite Hl in *. auto.
  - destruct (mouseup_listener (registered w)) eqn:Hl; cbn;
      intros H; injection H as <-; [|rewrite Hl in *; auto].
    unfold _stopDrag. cbv zeta.
    destruct (store _); cbn; (split; [reflexivity|]);
      (split; [exact Hdown | discriminate]).
  - destruct (storage_listener (registered w));
      [|cbn; intros H; injection H as <-; auto].
    unfold _onStorage.
    destruct (draggable_is_false (el w));
      [cbn; intros H; injection H as <-; auto|].
    destruct (key e) as [k|]; [|cbn; intros H; injection H as <-; auto].
    destruct (String.eqb k (id (this w)));
      [|cbn; intros H; injection H as <-; auto].
    intros H. apply _updatePos_keeps in H as (Hp & Hx & Hy & _ & Hr).
    rewrite Hr. split; [exact Heq|].
    split; intros Hon; apply (initialised_same (this w)); auto.
Qed.

Lemma run_listeners_consistent tr : forall w w',
  listeners_consistent w -> run tr w = Some w' -> listeners_consistent w'.
Proof.
  induction tr as [|[h a] tr IH]; intros w w' Hc.
  - cbn. intros H; injection H as <-. exact Hc.
  - cbn [run]. destruct (after (step h a w)) as [w1|] eqn:E; cbn;
      [|discriminate].
    apply IH. exact (step_listeners_consistent h a w w1 Hc E).
Qed.

Lemma constructor_listeners_consistent h target ls idArg d e s b w0 :
  constructor h target ls idArg d e s b = Ok w0 -> listeners_consistent w0.
Proof.
  unfold constructor. destruct d, e; try discriminate.
  destruct idArg as [i|]; [|discriminate].
  destruct (String.eqb i EmptyString); [discriminate|].
  destruct b.
  - destruct (_setProperties h _) as [w1|ex w1|] eqn:E1; cbn;
      try discriminate.
    apply _setProperties_Ok_inv in E1 as (Ht & _ & _ & Hr).
    unfold _restorePos.
    destruct (_updatePos h _ w1) as [w2|ex w2|] eqn:E2; cbn;
      try discriminate.
    assert (after (_updatePos h (localStorage w1 !! id (this w1)) w1)
            = Some w2) as Hb by (rewrite E2; reflexivity).
    apply _updatePos_keeps in Hb as (Hp & Hx & Hy & _ & Hr2).
    intros H; injection H as <-. unfold listeners_consistent. cbn.
    rewrite Hr2, Hr. cbn.
    assert (initialised (this w2)) as Hinit.
    { unfold initialised. rewrite Hp, Hx, Hy, Ht. cbn.
      repeat split; discriminate. }
    split; [reflexivity|]. split; [intros _; exact Hinit | discriminate].
  - cbn. intros H; injection H as <-. unfold listeners_consistent. cbn.
    split; [reflexivity|]. split; discriminate.
Qed.

(** X16. In every state an instance reaches from its construction, the
    move and the release handler are registered together, and the press
    and move handlers are registered only after [_setProperties] has filled
    the position and the thresholds they read: neither of the two ever
    reads an [undefined] field, and a drag that listens to moves can always
    be ended by a release. *)
Theorem reachable_listeners_consistent h target ls idArg d e s b w0 tr w :
  constructor h target ls idArg d e s b = Ok w0 ->
  run tr w0 = Some w ->
  listeners_consistent w.
Proof.
  intros H0 Hrun.
  apply (run_listeners_consistent tr w0 w); [|exact Hrun].
  exact (constructor_listeners_consistent _ _ _ _ _ _ _ _ _ H0).
Qed.

Lemma reachable_listeners_consistent_witness :
  exists w0 w,
    constructor (page Static (box 0 0) 800 600) plain_element ∅
      (Some "box"%string) HTMLElement HTMLElement true false = Ok w0
    /\ run [(page Fixed (box 0 0) 800 600, mousedown (press 10 10));
            (page Fixed (box 0 0) 800 600, call_start);
            (page Fixed (box 0 0) 800 600, mousedown (press 10 10));
            (page Fixed (box 0 0) 800 600, mousemove (press 60 40));
            (page Fixed (box 0 0) 800 600, call_removeListeners)] w0
       = Some w
    /\ listeners_consistent w.
Proof.
  eexists. eexists.
  split; [vm_compute; reflexivity|].
  match goal with |- run ?tr0 ?w00 = _ /\ _ => pose (trc := tr0); pose (wc := w00) end.
  split; [vm_compute; reflexivity|].
  apply (reachable_listeners_consistent (page Static (box 0 0) 800 600)
           plain_element ∅ (Some "box"%string) HTMLElement HTMLElement
           true false wc trc).
  - vm_compute; reflexivity.
  - vm_compute; reflexivity.
Defined.

(** ** Reconciling: what is recorded and what is rendered *)





(** ** Restoring on load *)

Lemma _updatePos_stored_in_range h tx ty w maxX maxY :
  thresholdX (this w) = Some maxX ->
  thresholdY (this w) = Some maxY ->
  within maxX (rect_left (boundingClientRect h)) ->
  within maxY (rect_top (boundingClientRect h)) ->
  exists w',
    _updatePos h (Some (JSON.stringify tx ty)) w = Ok w'
    /\ style_translate (el w') = translate_px tx ty
    /\ dataset_translate (el w') = Some (annotation tx ty)
    /\ localStorage w' = localStorage w
    /\ registered w' = registered w
    /\ enabled (this w') = enabled (this w).
Proof.
  intros Hx Hy Hwx Hwy. unfold _updatePos.
  replace (String.eqb (JSON.stringify tx ty) EmptyString)
    with false by reflexivity.
  rewrite parse_stringify.
  pose proof (_getPos_box_in_range h tx ty w maxX maxY Hx Hy Hwx Hwy)
    as (w1 & E).
  pose proof E as E'. unfold _getPos in E'. cbn in E'.
  injection E' as _ _ <-.
  rewrite E. cbn -[annotation]. eexists. split; [reflexivity|].
  repeat split.
Qed.

(** X19. Restoring on load. Constructing an enabled instance on a fixed or
    absolute element whose box is inside the range of the set-up, with an
    offset of integer pixel values stored under its id: with [store] set,
    the stored offset is recorded and rendered as it is, without a clamp of
    its own, and the store is left unchanged; with [store] unset, the entry
    is removed before it is read, the recorded offset is (0, 0) and the
    rendering of the element is not touched. *)
Theorem restore_on_load h target ls i tx ty :
  String.eqb i EmptyString = false ->
  out_of_flow (computed_position h) = true ->
  Forall pixel
    [tx; ty; rect_left (boundingClientRect h);
     rect_top (boundingClientRect h);
     x (setup_range h); y (setup_range h)] ->
  ls !! i = Some (JSON.stringify tx ty) ->
  within (x (setup_range h)) (rect_left (boundingClientRect h)) ->
  within (y (setup_range h)) (rect_top (boundingClientRect h)) ->
  (exists w,
     constructor h target ls (Some i) HTMLElement HTMLElement true true = Ok w
     /\ style_translate (el w) = translate_px tx ty
     /\ dataset_translate (el w) = Some (annotation tx ty)
     /\ localStorage w = ls)
  /\ (exists w,
        constructor h target ls (Some i) HTMLElement HTMLElement false true
        = Ok w
        /\ style_translate (el w) = style_translate target
        /\ dataset_translate (el w) = Some zero_annotation
        /\ localStorage w !! i = None).
Proof.
  intros Hi Hp _ Hls Hwx Hwy. unfold out_of_flow in Hp. split.
  - unfold constructor. rewrite Hi. cbn [mbind].
    unfold _setProperties.
    cbn [this set_this fresh_instance enabled store id localStorage el
         registered andb].
    rewrite Hp. cbn -[_restorePos].
    match goal with
    | |- context [_restorePos h ?w1] =>
        destruct (_updatePos_stored_in_range h tx ty w1
                    (x (setup_range h)) (y (setup_range h))
                    eq_refl eq_refl Hwx Hwy)
          as (w' & E & Hs & Hd & Hl & _);
        unfold _restorePos;
        replace (localStorage w1 !! id (this w1))
          with (Some (JSON.stringify tx ty)) by (symmetry; exact Hls)
    end.
    cbn -[_updatePos] in E |- *. rewrite E. cbn -[annotation].
    eexists. split; [reflexivity|].
    cbn -[annotation]. cbn in Hl. repeat split; assumption.
  - unfold constructor. rewrite Hi. cbn [mbind].
    unfold _setProperties.
    cbn [this set_this fresh_instance enabled store id localStorage el
         registered andb].
    rewrite Hp. cbn -[_restorePos]. unfold _restorePos.
    cbn [this id localStorage]. rewrite lookup_delete_eq.
    cbn. eexists. split; [reflexivity|]. cbn.
    split; [reflexivity|]. split; [reflexivity|]. apply lookup_delete_eq.
Qed.

Lemma restore_on_load_witness :
  exists w,
    String.eqb "box" EmptyString = false
    /\ within (x (setup_range (page Fixed (box 10 10) 640 480))) 10
    /\ constructor (page Fixed (box 10 10) 640 480) plain_element
         {[ "box"%string := JSON.stringify 9000 (-4) ]} (Some "box"%string)
         HTMLElement HTMLElement true true = Ok w
    /\ style_translate (el w) = translate_px 9000 (-4).
Proof.
  destruct (restore_on_load (page Fixed (box 10 10) 640 480) plain_element
              {[ "box"%string := JSON.stringify 9000 (-4) ]} "box" 9000 (-4))
    as [(w & E & Hs & _) _];
    try reflexivity; try (unfold within; cbn; lia);
    try (repeat constructor; vm_compute; discriminate).
  exists w. split; [reflexivity|].
  split; [unfold within; cbn; lia|]. split; [exact E | exact Hs].
Defined.

(** ** Disabling and enabling again *)


